(** * Callback handling of next-auth with the Discourse SSO provider

    A shallow embedding of the two request handlers of the repository:
    the initiation step of the Discourse single-sign-on provider
    ([getAuthorisationUrl]) and the callback orchestrator ([callback]),
    together with models of the Node.js library functions they call.

    Conventions.
    - A JavaScript string is modelled by the [string] of the bytes of its
      UTF-8 encoding, so [Buffer.from(s)] and [buf.toString('utf8')] are the
      identity on well-formed text.  Where Node.js would replace an
      ill-formed byte sequence by U+FFFD the executable library [node]
      keeps the bytes; the properties of the orchestrator are proved for
      any implementation of the library interface [NodeLib] and do not
      depend on this.
    - The handlers write to the response, to the log and to the hooks of the
      application; the model collects these effects, in program order, in a
      trace of [event]s.  A handler is a computation in a writer/exception
      monad [M]; a JavaScript exception (or a rejected promise under [await])
      is [Raise], [return done()] is [Exit].
    - A query parameter and a cookie are strings (a parameter given twice,
      which the framework turns into an array, is outside the model); what
      is thrown is an [Error] with a name or any other value, such as the
      [null] or [undefined] a promise can be rejected with; [cookie.set],
      the logger and the methods of the response do not throw; the session
      lifetime is an integer number of seconds and the clock a time in the
      range of [Date], so that the arithmetic of the expiry is exact; an
      object that [getAdapter] returns is an adapter, whose functions are
      hooks; [providers] is a plain object. *)

From Stdlib Require Import String Ascii List NArith ZArith Bool Lia.
#[local] Set Warnings "-register-all".
#[local] Set Warnings "-automation".
Import ListNotations.
Local Open Scope string_scope.

(** ** Bytes and hexadecimal *)

Module Bytes.

Definition of_string (s : string) : list N :=
  map N_of_ascii (list_ascii_of_string s).

Definition to_string (l : list N) : string :=
  string_of_list_ascii (map ascii_of_N l).

Definition hex_digit (n : N) : ascii :=
  nth (N.to_nat n)
      (list_ascii_of_string "0123456789abcdef") "0"%char.

(** [buf.toString('hex')] and [digest('hex')]: two lowercase digits a byte. *)
Fixpoint to_hex (l : list N) : string :=
  match l with
  | [] => EmptyString
  | b :: r => String (hex_digit (b / 16)) (String (hex_digit (b mod 16)) (to_hex r))
  end.

End Bytes.

(** ** SHA-256 and HMAC (FIPS 180-4, RFC 2104), as [crypto.createHmac] computes them *)

Module Sha256.

Local Open Scope N_scope.

Definition w32 : N := 4294967296.
Definition add32 (a b : N) : N := (a + b) mod w32.
Definition rotr (n x : N) : N :=
  N.lor (N.shiftr x n) ((N.shiftl x (32 - n)) mod w32).
Definition not32 (x : N) : N := N.lxor x (w32 - 1).

Definition ch (x y z : N) := N.lxor (N.land x y) (N.land (not32 x) z).
Definition maj (x y z : N) :=
  N.lxor (N.lxor (N.land x y) (N.land x z)) (N.land y z).
Definition bsig0 x := N.lxor (N.lxor (rotr 2 x) (rotr 13 x)) (rotr 22 x).
Definition bsig1 x := N.lxor (N.lxor (rotr 6 x) (rotr 11 x)) (rotr 25 x).
Definition ssig0 x := N.lxor (N.lxor (rotr 7 x) (rotr 18 x)) (N.shiftr x 3).
Definition ssig1 x := N.lxor (N.lxor (rotr 17 x) (rotr 19 x)) (N.shiftr x 10).

(** The primes below [2 + fuel], by trial division. *)
Fixpoint primes_from (fuel : nat) (c : N) (found : list N) : list N :=
  match fuel with
  | O => rev found
  | S k =>
      if existsb (fun q => c mod q =? 0) found then primes_from k (c + 1) found
      else primes_from k (c + 1) (c :: found)
  end.

Definition primes : list N := primes_from 310 2 [].

(** The largest [r] below [2 ^ bits] with [r ^ 3 <= x]. *)
Fixpoint cube_root (bits : nat) (x r : N) : N :=
  match bits with
  | O => r
  | S k =>
      let r' := r + N.shiftl 1 (N.of_nat k) in
      cube_root k x (if r' * r' * r' <=? x then r' else r)
  end.

(** The round constants: the first 32 bits of the fractional parts of the
    cube roots of the first 64 primes. *)
Definition K : list N :=
  Eval vm_compute in
    map (fun q => cube_root 36 (N.shiftl q 96) 0 mod w32) (firstn 64 primes).

(** The initial hash value: the first 32 bits of the fractional parts of
    the square roots of the first 8 primes. *)
Definition H0 : list N :=
  Eval vm_compute in
    map (fun q => N.sqrt (N.shiftl q 64) mod w32) (firstn 8 primes).

(** Big-endian bytes of a number, [n] of them. *)
Fixpoint be_bytes (n : nat) (x : N) : list N :=
  match n with
  | O => []
  | S k => be_bytes k (x / 256) ++ [x mod 256]
  end.

Definition pad (msg : list N) : list N :=
  let len := N.of_nat (length msg) in
  let zeros := N.to_nat ((119 - len mod 64) mod 64) in
  msg ++ [128] ++ repeat 0 zeros ++ be_bytes 8 (8 * len).

(** The words of a block, four bytes each, most significant first. *)
Fixpoint words (l : list N) : list N :=
  match l with
  | a :: b :: c :: d :: r => (((a * 256 + b) * 256 + c) * 256 + d) :: words r
  | _ => []
  end.

(** The message schedule, latest word first: [rev_w] holds W(t-1), W(t-2), ... *)
Fixpoint schedule (n : nat) (rev_w : list N) : list N :=
  match n with
  | O => rev_w
  | S k =>
      let w := add32 (add32 (ssig1 (nth 1 rev_w 0)) (nth 6 rev_w 0))
                     (add32 (ssig0 (nth 14 rev_w 0)) (nth 15 rev_w 0)) in
      schedule k (w :: rev_w)
  end.

Record regs := Regs { ra : N; rb : N; rc : N; rd : N; re : N; rf : N; rg : N; rh : N }.

Definition round (s : regs) (kw : N * N) : regs :=
  let t1 := add32 (add32 (add32 (rh s) (bsig1 (re s)))
                         (add32 (ch (re s) (rf s) (rg s)) (fst kw))) (snd kw) in
  let t2 := add32 (bsig0 (ra s)) (maj (ra s) (rb s) (rc s)) in
  Regs (add32 t1 t2) (ra s) (rb s) (rc s) (add32 (rd s) t1) (re s) (rf s) (rg s).

Definition regs_of (h : list N) : regs :=
  Regs (nth 0 h 0) (nth 1 h 0) (nth 2 h 0) (nth 3 h 0)
       (nth 4 h 0) (nth 5 h 0) (nth 6 h 0) (nth 7 h 0).

Definition compress (h : list N) (block : list N) : list N :=
  let w := rev (schedule 48 (rev (words block))) in
  let s := fold_left round (combine K w) (regs_of h) in
  map (fun p => add32 (fst p) (snd p))
      (combine h [ra s; rb s; rc s; rd s; re s; rf s; rg s; rh s]).

Fixpoint blocks (n : nat) (h : list N) (l : list N) : list N :=
  match n with
  | O => h
  | S k => blocks k (compress h (firstn 64 l)) (skipn 64 l)
  end.

Definition sha256 (msg : list N) : list N :=
  let p := pad msg in
  flat_map (be_bytes 4) (blocks (length p / 64) H0 p).

Definition xor_pad (c : N) (key : list N) : list N :=
  map (fun b => N.lxor b c) (key ++ repeat 0 (64 - length key)).

Definition hmac (key msg : list N) : list N :=
  let k := if (64 <? length key)%nat then sha256 key else key in
  sha256 (xor_pad 0x5c k ++ sha256 (xor_pad 0x36 k ++ msg)).

End Sha256.

(** [crypto.createHmac('sha256', key).update(data).digest('hex')]. *)
Definition hmac_sha256_hex (key data : string) : string :=
  Bytes.to_hex (Sha256.hmac (Bytes.of_string key) (Bytes.of_string data)).

(** ** Base64, as [Buffer] encodes and decodes it *)

Module Base64.

Local Open Scope N_scope.

Definition alphabet : string :=
  "ABCDEFGHIJKLMNOPQRSTUVWXYZabcdefghijklmnopqrstuvwxyz0123456789+/".

Definition char_of (n : N) : ascii :=
  nth (N.to_nat n) (list_ascii_of_string alphabet) "A"%char.

(** The decoder's table: the standard and the URL-safe alphabet. *)
Definition unbase64 (c : ascii) : option N :=
  let n := N_of_ascii c in
  if (65 <=? n) && (n <=? 90) then Some (n - 65)
  else if (97 <=? n) && (n <=? 122) then Some (n - 71)
  else if (48 <=? n) && (n <=? 57) then Some (n + 4)
  else if (n =? 43) || (n =? 45) then Some 62
  else if (n =? 47) || (n =? 95) then Some 63
  else None.

(** [Buffer.from(s).toString('base64')]. *)
Fixpoint encode (s : string) : string :=
  match s with
  | EmptyString => EmptyString
  | String a EmptyString =>
      let x := N_of_ascii a in
      String (char_of (x / 4)) (String (char_of ((x mod 4) * 16)) "==")
  | String a (String b EmptyString) =>
      let x := N_of_ascii a in
      let y := N_of_ascii b in
      String (char_of (x / 4))
        (String (char_of ((x mod 4) * 16 + y / 16))
           (String (char_of ((y mod 16) * 4)) "="))
  | String a (String b (String c r)) =>
      let x := N_of_ascii a in
      let y := N_of_ascii b in
      let z := N_of_ascii c in
      String (char_of (x / 4))
        (String (char_of ((x mod 4) * 16 + y / 16))
           (String (char_of ((y mod 16) * 4 + z / 64))
              (String (char_of (z mod 64)) (encode r))))
  end.

(** The decoder skips every character outside its table and stops at the
    first [=]. *)
Fixpoint sextets (s : string) : list N :=
  match s with
  | EmptyString => []
  | String c r =>
      if Ascii.eqb c "="%char then []
      else match unbase64 c with
           | Some v => v :: sextets r
           | None => sextets r
           end
  end.

Fixpoint bytes_of (l : list N) : list N :=
  match l with
  | a :: b :: c :: d :: r =>
      (a * 4 + b / 16) :: ((b mod 16) * 16 + c / 4) :: ((c mod 4) * 64 + d)
        :: bytes_of r
  | [a; b; c] => [a * 4 + b / 16; (b mod 16) * 16 + c / 4]
  | [a; b] => [a * 4 + b / 16]
  | _ => []
  end.

(** [Buffer.from(s, 'base64')]. *)
Definition decode (s : string) : string :=
  Bytes.to_string (bytes_of (sextets s)).

Definition in_alphabet (c : ascii) : bool :=
  existsb (Ascii.eqb c) (list_ascii_of_string alphabet) || Ascii.eqb c "="%char.

End Base64.

(** ** URI component escaping *)

Module Uri.

Local Open Scope N_scope.

Definition hex_val (c : ascii) : option N :=
  let n := N_of_ascii c in
  if (48 <=? n) && (n <=? 57) then Some (n - 48)
  else if (65 <=? n) && (n <=? 70) then Some (n - 55)
  else if (97 <=? n) && (n <=? 102) then Some (n - 87)
  else None.

(** The two hexadecimal digits after a [%]. *)
Definition escape (s : string) : option (N * string) :=
  match s with
  | String h (String l r) =>
      match hex_val h, hex_val l with
      | Some x, Some y => Some (16 * x + y, r)
      | _, _ => None
      end
  | _ => None
  end.

(** [n] escaped continuation bytes [%80]..[%BF]. *)
Fixpoint continuation (n : nat) (s : string) : option (list N * string) :=
  match n with
  | O => Some ([], s)
  | S k =>
      match s with
      | String "%" r =>
          match escape r with
          | Some (b, r') =>
              if (128 <=? b) && (b <=? 191) then
                match continuation k r' with
                | Some (bs, r'') => Some (b :: bs, r'')
                | None => None
                end
              else None
          | None => None
          end
      | _ => None
      end
  end.

(** Number of continuation bytes a lead byte announces. *)
Definition following (b : N) : nat :=
  if b <? 192 then 0 else if b <? 224 then 1 else if b <? 240 then 2
  else if b <? 248 then 3 else 0.

(** Well-formed UTF-8: no overlong form, no surrogate, at most U+10FFFF. *)
Definition utf8_ok (b : N) (bs : list N) : bool :=
  match bs with
  | [_] => (194 <=? b) && (b <=? 223)
  | [c; _] =>
      ((b =? 224) && (160 <=? c)) || ((225 <=? b) && (b <=? 236))
      || ((b =? 237) && (c <=? 159)) || ((238 <=? b) && (b <=? 239))
  | [c; _; _] =>
      ((b =? 240) && (144 <=? c)) || ((241 <=? b) && (b <=? 243))
      || ((b =? 244) && (c <=? 143))
  | _ => false
  end.

Fixpoint decode_fuel (fuel : nat) (s : string) : option string :=
  match fuel with
  | O => None
  | S k =>
      match s with
      | EmptyString => Some EmptyString
      | String c r =>
          if Ascii.eqb c "%"%char then
            match escape r with
            | None => None
            | Some (b, r') =>
                if b <? 128 then
                  option_map (String (ascii_of_N b)) (decode_fuel k r')
                else
                  match following b with
                  | O => None
                  | n =>
                      match continuation n r' with
                      | None => None
                      | Some (bs, r'') =>
                          if utf8_ok b bs then
                            option_map (append (Bytes.to_string (b :: bs)))
                                       (decode_fuel k r'')
                          else None
                      end
                  end
            end
          else option_map (String c) (decode_fuel k r)
      end
  end.

(** [decodeURIComponent(s)]; [None] when it throws [URIError]. *)
Definition decodeURIComponent (s : string) : option string :=
  decode_fuel (S (String.length s)) s.

Definition unreserved (c : ascii) : bool :=
  let n := N_of_ascii c in
  ((65 <=? n) && (n <=? 90)) || ((97 <=? n) && (n <=? 122))
  || ((48 <=? n) && (n <=? 57))
  || existsb (Ascii.eqb c) (list_ascii_of_string "-_.!~*'()").

Definition upper_hex (n : N) : ascii :=
  nth (N.to_nat n) (list_ascii_of_string "0123456789ABCDEF") "0"%char.

(** [encodeURIComponent(s)]. *)
Fixpoint encodeURIComponent (s : string) : string :=
  match s with
  | EmptyString => EmptyString
  | String c r =>
      if unreserved c then String c (encodeURIComponent r)
      else
        let n := N_of_ascii c in
        String "%" (String (upper_hex (n / 16)) (String (upper_hex (n mod 16))
                                                   (encodeURIComponent r)))
  end.

(** The decoder [querystring.unescape] falls back to when
    [decodeURIComponent] throws: an incomplete escape is kept as it is. *)
Fixpoint unescape_lenient (s : string) : string :=
  match s with
  | EmptyString => EmptyString
  | String c r =>
      if Ascii.eqb c "%"%char then
        match r with
        | String h (String l r') =>
            match hex_val h, hex_val l with
            | Some x, Some y => String (ascii_of_N (16 * x + y)) (unescape_lenient r')
            | _, _ => String c (unescape_lenient r)
            end
        | _ => String c (unescape_lenient r)
        end
      else String c (unescape_lenient r)
  end.

End Uri.

(** ** JavaScript values *)

Inductive jsval : Type :=
| JUndefined
| JNull
| JBool (b : bool)
| JNum (z : Z)
| JNaN
| JStr (s : string)
| JArr (l : list jsval)
| JObj (fields : list (string * jsval)).

(** An object literal: its properties in insertion order. *)
Definition obj : Type := list (string * jsval).

(** [ToBoolean]: what [!v], [v || w], [v && w] and [if (v)] test. *)
Definition truthy (v : jsval) : bool :=
  match v with
  | JUndefined | JNull | JNaN => false
  | JBool b => b
  | JNum z => negb (z =? 0)%Z
  | JStr s => negb (s =? EmptyString)
  | JArr _ | JObj _ => true
  end.

(** [v === false]. *)
Definition is_false (v : jsval) : bool :=
  match v with
  | JBool false => true
  | _ => false
  end.

(** [v === 'true']. *)
Definition is_string_true (v : jsval) : bool :=
  match v with
  | JStr s => s =? "true"
  | _ => false
  end.

(** [v || w]. *)
Definition js_or (v w : jsval) : jsval := if truthy v then v else w.

(** [o[k]] on an object literal; [undefined] when the property is absent. *)
Fixpoint get (k : string) (o : obj) : jsval :=
  match o with
  | [] => JUndefined
  | (k', v) :: r => if k =? k' then v else get k r
  end.

Fixpoint has (k : string) (o : obj) : bool :=
  match o with
  | [] => false
  | (k', _) :: r => (k =? k') || has k r
  end.

(** [o[k] = v]: an existing property keeps its place, a new one goes last. *)
Fixpoint set (k : string) (v : jsval) (o : obj) : obj :=
  match o with
  | [] => [(k, v)]
  | (k', v') :: r => if k =? k' then (k, v) :: r else (k', v') :: set k v r
  end.

(** [{ ...base, ...o }]: the properties of [o] override those of [base]. *)
Definition spread (base o : obj) : obj :=
  fold_left (fun acc kv => set (fst kv) (snd kv) acc) o base.

(** [v.k]; reading a property of [undefined] or [null] throws, and the
    primitive values have none of the properties the handlers read. *)
Definition member (k : string) (v : jsval) : option jsval :=
  match v with
  | JUndefined | JNull => None
  | JObj o => Some (get k o)
  | _ => Some JUndefined
  end.

(** A string option read as a value ([undefined] when absent). *)
Definition of_option (o : option string) : jsval :=
  match o with
  | Some s => JStr s
  | None => JUndefined
  end.

(** ** [querystring.parse] *)

Module Querystring.

(** [s.split(sep)]: at least one piece. *)
Fixpoint split (sep : ascii) (s : string) : list string :=
  match s with
  | EmptyString => [EmptyString]
  | String c r =>
      if Ascii.eqb c sep then EmptyString :: split sep r
      else match split sep r with
           | p :: ps => String c p :: ps
           | [] => [String c EmptyString]
           end
  end.

(** A pair is cut at its first [=]; without one the value is empty. *)
Fixpoint cut (eq : ascii) (s : string) : string * string :=
  match s with
  | EmptyString => (EmptyString, EmptyString)
  | String c r =>
      if Ascii.eqb c eq then (EmptyString, r)
      else let (k, v) := cut eq r in (String c k, v)
  end.

Fixpoint plus_to_space (s : string) : string :=
  match s with
  | EmptyString => EmptyString
  | String c r =>
      String (if Ascii.eqb c "+"%char then " "%char else c) (plus_to_space r)
  end.

(** [querystring.unescape]. *)
Definition unescape (s : string) : string :=
  match Uri.decodeURIComponent s with
  | Some d => d
  | None => Uri.unescape_lenient s
  end.

(** A repeated key collects its values in an array. *)
Fixpoint add (k v : string) (o : obj) : obj :=
  match o with
  | [] => [(k, JStr v)]
  | (k', old) :: r =>
      if k =? k' then
        (k', match old with
             | JArr l => JArr (l ++ [JStr v])%list
             | _ => JArr [old; JStr v]
             end) :: r
      else (k', old) :: add k v r
  end.

Definition add_pair (o : obj) (pair : string) : obj :=
  if pair =? EmptyString then o
  else let (k, v) := cut "="%char pair in
       add (unescape (plus_to_space k)) (unescape (plus_to_space v)) o.

(** [querystring.parse(s)], with the default separators and the default
    limit of 1000 pairs. *)
Definition parse (s : string) : obj :=
  if s =? EmptyString then []
  else fold_left add_pair (firstn 1000 (split "&"%char s)) [].

End Querystring.

(** ** The library interface of the handlers *)

(** The functions of Node.js the two handlers call.  The handlers are
    defined, and the properties of the orchestrator proved, for any
    implementation of this interface; [node] below is the executable one
    used for the codec and for concrete runs. *)
Class NodeLib : Type := {
  (** [crypto.createHmac('sha256', key).update(data).digest('hex')] *)
  lib_hmac : string -> string -> string;
  (** [decodeURIComponent(s)], [None] when it throws *)
  lib_decodeURIComponent : string -> option string;
  (** [encodeURIComponent(s)] *)
  lib_encodeURIComponent : string -> string;
  (** [Buffer.from(s).toString('base64')] *)
  lib_base64 : string -> string;
  (** [Buffer.from(s, 'base64')], the bytes *)
  lib_unbase64 : string -> string;
  (** [b.toString('utf8')] *)
  lib_utf8 : string -> string;
  (** [querystring.parse(s)] *)
  lib_parse : string -> obj;
  (** [new Date(ms).toISOString()] *)
  lib_iso : Z -> string
}.

(** Decimal digits of a natural number, for the time stamps of [node]. *)
Fixpoint decimal (fuel : nat) (n : N) (acc : string) : string :=
  match fuel with
  | O => acc
  | S k =>
      let acc' := String (ascii_of_N (48 + n mod 10)) acc in
      if (n <? 10)%N then acc' else decimal k (n / 10) acc'
  end.

(** The executable library.  Dates are printed as their epoch milliseconds:
    no property below depends on the calendar. *)
#[export] Instance node : NodeLib := {
  lib_hmac := hmac_sha256_hex;
  lib_decodeURIComponent := Uri.decodeURIComponent;
  lib_encodeURIComponent := Uri.encodeURIComponent;
  lib_base64 := Base64.encode;
  lib_unbase64 := Base64.decode;
  lib_utf8 := fun b => b;
  lib_parse := Querystring.parse;
  lib_iso := fun ms => decimal 64 (Z.to_N ms) EmptyString
}.

(** ** Exceptions, effects and the handler monad *)

(** What is thrown, or what a promise is rejected with: an [Error] with
    its name and message, or any other value. *)
Inductive exn : Type :=
| Exn (name message : string)
| Thrown (v : jsval).

Definition TypeError (msg : string) : exn := Exn "TypeError" msg.
Definition URIError (msg : string) : exn := Exn "URIError" msg.
Definition RangeError (msg : string) : exn := Exn "RangeError" msg.

(** The value a [catch] binds. *)
Definition js_of_exn (e : exn) : jsval :=
  match e with
  | Exn n m => JObj [("name", JStr n); ("message", JStr m)]
  | Thrown v => v
  end.

(** [error.name], which cannot be read off [undefined] or [null]. *)
Definition exn_name (e : exn) : option jsval :=
  member "name" (js_of_exn e).

(** [v === s] for a string [s]. *)
Definition is_named (s : string) (v : jsval) : bool :=
  match v with
  | JStr n => n =? s
  | _ => false
  end.

(** Whether the value is an object: not [undefined], [null], a primitive
    or an array. *)
Definition is_object (v : jsval) : bool :=
  match v with
  | JObj _ => true
  | _ => false
  end.

(** The properties every plain object inherits from [Object.prototype]. *)
Definition inherited (k : string) : bool :=
  existsb (String.eqb k)
    ["constructor"; "__proto__"; "hasOwnProperty"; "isPrototypeOf";
     "propertyIsEnumerable"; "toLocaleString"; "toString"; "valueOf";
     "__defineGetter__"; "__defineSetter__"; "__lookupGetter__";
     "__lookupSetter__"].

(** The times a [Date] can hold: 8.64e15 milliseconds either side of the
    epoch. *)
Definition valid_time (t : Z) : bool := (Z.abs t <=? 8640000000000000)%Z.

(** The outcome of a call that is awaited: it returns (the promise is
    fulfilled) or it throws (the promise is rejected). *)
Inductive hres : Type :=
| Ret (v : jsval)
| Thr (e : exn).

(** The functions of the application and of the rest of next-auth that the
    orchestrator calls. *)
Inductive hook : Type :=
| HSignin                     (* callbacks.signin *)
| HJwt                        (* callbacks.jwt *)
| HJwtEncode                  (* jwt.encode *)
| HCallbackHandler            (* lib/callback-handler *)
| HDispatchEvent              (* lib/dispatch-event *)
| HAuthorize                  (* provider.authorize *)
| HGetAdapter                 (* adapter.getAdapter *)
| HGetVerificationRequest
| HDeleteVerificationRequest
| HGetUserByEmail.

(** The library functions whose calls the trace records. *)
Inductive libfn : Type :=
| FDecodeURIComponent
| FHmac
| FBufferFromBase64
| FToStringUtf8
| FParse.

Inductive event : Type :=
| LogError (code : string) (detail : jsval)   (* logger.error *)
| LogDebug (code : string)                    (* logger.debug *)
| Lib (f : libfn) (arg : jsval) (r : hres)
| Call (h : hook) (args : list jsval) (r : hres)
| OAuth                                       (* oAuthCallback is entered *)
| CookieSet (name : string) (value : jsval) (options : obj)
| Status (code : Z)                           (* res.status *)
| SetHeader (name value : string)             (* res.setHeader *)
| End (body : option string)                  (* res.end *)
| Done.                                       (* done() *)

Inductive result (A : Type) : Type :=
| Value (a : A)
| Exit                  (* the handler has returned *)
| Raise (e : exn).      (* an exception is propagating *)
Arguments Value {A} a.
Arguments Exit {A}.
Arguments Raise {A} e.

Definition M (A : Type) : Type := list event * result A.

Definition ret {A} (a : A) : M A := ([], Value a).

Definition bind {A B} (m : M A) (f : A -> M B) : M B :=
  match m with
  | (t, Value a) => let (t', r) := f a in ((t ++ t')%list, r)
  | (t, Exit) => (t, Exit)
  | (t, Raise e) => (t, Raise e)
  end.

Declare Scope handler_scope.
Delimit Scope handler_scope with handler.
Notation "x <- m ;; k" := (bind m (fun x => k))
  (at level 61, m at next level, right associativity) : handler_scope.
Notation "m ;; k" := (bind m (fun _ => k))
  (at level 61, right associativity) : handler_scope.
Notation "' pat <- m ;; k" :=
  (bind m (fun x => match x with pat => k end))
  (at level 61, pat pattern, m at next level, right associativity) : handler_scope.
Local Open Scope handler_scope.

Definition emit (e : event) : M unit := ([e], Value tt).
Definition throw {A} (e : exn) : M A := ([], Raise e).
Definition exit {A} : M A := ([], Exit).

(** [try { m } catch (error) { h error }]. *)
Definition try_catch {A} (m : M A) (h : exn -> M A) : M A :=
  match m with
  | (t, Raise e) => let (t', r) := h e in ((t ++ t')%list, r)
  | (t, Value a) => (t, Value a)
  | (t, Exit) => (t, Exit)
  end.

(** [res.status(302).setHeader('Location', loc)] and [res.end()]. *)
Definition redirect (loc : string) : M unit :=
  emit (Status 302) ;; emit (SetHeader "Location" loc) ;; emit (End None).

(** [return done()]. *)
Definition finish {A} : M A := emit Done ;; exit.

(** ** Requests, configuration and the application *)

Fixpoint lookup (k : string) (l : list (string * string)) : option string :=
  match l with
  | [] => None
  | (k', v) :: r => if k =? k' then Some v else lookup k r
  end.

(** The value when it is a string that is not empty, as [!v] and [v || w]
    see it. *)
Definition nonempty (o : option string) : option string :=
  match o with
  | Some s => if s =? EmptyString then None else Some s
  | None => None
  end.

Record request : Type := {
  method : string;
  query : list (string * string);            (* req.query *)
  cookies : option (list (string * string)); (* req.cookies, may be unset *)
  body : jsval                               (* req.body *)
}.

Record provider : Type := {
  id : string;
  type : string;
  secret : string;          (* provider.secret *)
  authorize : bool;         (* whether provider.authorize is defined *)
  callbackUrl : string;     (* provider.callbackUrl *)
  url : string              (* provider.url *)
}.

Definition js_of_provider (p : provider) : jsval :=
  JObj [("id", JStr (id p)); ("type", JStr (type p))].

Record cookie : Type := { name : string; options : obj }.

Record config : Type := {
  providerName : string;                 (* options.provider *)
  providers : list (string * provider);
  adapter : bool;                        (* whether options.adapter is set *)
  site : string;
  optSecret : string;                    (* options.secret *)
  baseUrl : string;
  sessionTokenCookie : cookie;           (* cookies.sessionToken *)
  nonceHashCookie : cookie;              (* cookies.nonceHash *)
  optCallbackUrl : option string;        (* options.callbackUrl *)
  newUser : option string;               (* pages.newUser *)
  jwtSecret : jsval;                     (* jwt.secret *)
  useJwtSession : bool;                  (* options.session.jwt *)
  sessionMaxAge : Z                      (* options.session.maxAge *)
}.

Fixpoint find_provider (k : string) (l : list (string * provider)) : option provider :=
  match l with
  | [] => None
  | (k', p) :: r => if k =? k' then Some p else find_provider k r
  end.

(** What [oAuthCallback] does with the function it is given: it throws, or
    it calls it with [(error, profile, account, OAuthProfile)]. *)
Inductive oauth_result : Type :=
| OAuthThrows (e : exn)
| OAuthCalls (error profile account OAuthProfile : jsval).

(** The application behind one request: what each hook answers to its
    arguments, what the OAuth transport reports, and the clock. *)
Record world : Type := {
  run : hook -> list jsval -> hres;
  oAuthCallback : oauth_result;
  now : Z                                (* new Date().getTime() *)
}.

(** ** The handlers *)

Section Handlers.

Context {L : NodeLib}.

(** *** Initiation ([getAuthorisationUrl]) *)

(** The payload for a nonce, its base64 form and the signature of that
    form (the lines from [const payload] to [const hex_sig]). *)
Definition payload_of (nonce returnUrl : string) : string :=
  ("nonce=" ++ nonce ++ "&return_sso_url=" ++ returnUrl)%string.

Definition sign (key nonce returnUrl : string) : string * string :=
  let payload := payload_of nonce returnUrl in
  let payload_b64 := lib_base64 payload in
  let hex_sig := lib_hmac key payload_b64 in
  (payload_b64, hex_sig).

(** What the handler passes to its continuation for the random bytes
    [buf]: the nonce hash and the URL to redirect to. *)
Definition authorisation (p : provider) (buf : list N) : string * string :=
  let nonce := Bytes.to_hex buf in
  let (payload_b64, hex_sig) := sign (secret p) nonce (callbackUrl p) in
  let urlenc_payload_b64 := lib_encodeURIComponent payload_b64 in
  let url_redirect :=
    (url p ++ "/session/sso_provider?sso=" ++ urlenc_payload_b64
       ++ "&sig=" ++ hex_sig)%string in
  let nonceHash := lib_hmac (secret p) nonce in
  (nonceHash, url_redirect).

(** [crypto.randomBytes] reports an error or the bytes.  On an error the
    handler logs it and goes on to read [buf], which is undefined. *)
Definition getAuthorisationUrl (p : provider) (random : exn + list N)
  : M (string * string) :=
  match random with
  | inl err =>
      emit (LogError "GET_AUTHORISATION_URL_ERROR" (js_of_exn err)) ;;
      throw (TypeError "Cannot read properties of undefined")
  | inr buf => ret (authorisation p buf)
  end.

(** *** The callback orchestrator *)

Variable w : world.
Variable req : request.
Variable o : config.

(** [await h(args)], recorded with its outcome. *)
Definition call (h : hook) (args : list jsval) : M jsval :=
  let r := run w h args in
  emit (Call h args r) ;;
  match r with
  | Ret v => ret v
  | Thr e => throw e
  end.

(** A library call that returns the string [r], and one that throws. *)
Definition returns (f : libfn) (arg : jsval) (r : string) : M string :=
  emit (Lib f arg (Ret (JStr r))) ;; ret r.

Definition throws {A} (f : libfn) (arg : jsval) (e : exn) : M A :=
  emit (Lib f arg (Thr e)) ;; throw e.

(** [crypto.createHmac('sha256', key)], [update(data)], [digest('hex')];
    [update] throws a [TypeError] unless [data] is a string (or a buffer). *)
Definition hmac_hex (key : string) (data : jsval) : M string :=
  match data with
  | JStr s => returns FHmac data (lib_hmac key s)
  | _ => throws FHmac data (TypeError "The data argument must be of type string")
  end.

(** [decodeURIComponent(s)]. *)
Definition decode_uri (s : string) : M string :=
  match lib_decodeURIComponent s with
  | Some d => returns FDecodeURIComponent (JStr s) d
  | None => throws FDecodeURIComponent (JStr s) (URIError "URI malformed")
  end.

(** [querystring.parse(s)]. *)
Definition parse (s : string) : M obj :=
  let r := lib_parse s in
  emit (Lib FParse (JStr s) (Ret (JObj r))) ;; ret r.

Definition error_page (code : string) : string :=
  (baseUrl o ++ "/error?error=" ++ code)%string.

(** [callbackUrl || site]. *)
Definition destination : string :=
  match nonempty (optCallbackUrl o) with
  | Some u => u
  | None => site o
  end.

(** [const { user, session, isNewUser } = await callbackHandler(...)]:
    reading a property of [undefined] or [null] throws. *)
Definition property (k : string) (v : jsval) : M jsval :=
  match member k v with
  | Some x => ret x
  | None => throw (TypeError "Cannot read properties of undefined")
  end.

(** [error.name] in a [catch]. *)
Definition name_of (error : exn) : M jsval :=
  match exn_name error with
  | Some n => ret n
  | None => throw (TypeError "Cannot read properties of undefined (reading 'name')")
  end.

(** [cookieExpires.setTime(cookieExpires.getTime() + sessionMaxAge * 1000)]
    and [cookieExpires.toISOString()]: a time outside the range of [Date]
    makes the date invalid, and [toISOString] then throws. *)
Definition expiry : M string :=
  let t := (now w + sessionMaxAge o * 1000)%Z in
  if valid_time t then ret (lib_iso t)
  else throw (RangeError "Invalid time value").

(** The session cookie: the block [if (useJwtSession) { ... } else { ... }]
    that the discourse, oauth and email branches share; [extra] is what the
    branch passes to [callbacks.jwt] after the payload. *)
Definition issue (user account isNewUser session : jsval) (extra : list jsval)
  : M unit :=
  if useJwtSession o then
    let defaultJwtPayload :=
      JObj [("user", user); ("account", account); ("isNewUser", isNewUser)] in
    jwtPayload <- call HJwt (defaultJwtPayload :: extra) ;;
    newEncodedJwt <-
      call HJwtEncode
        [JObj [("secret", jwtSecret o); ("token", jwtPayload);
               ("maxAge", JNum (sessionMaxAge o))]] ;;
    cookieExpires <- expiry ;;
    emit (CookieSet (name (sessionTokenCookie o)) newEncodedJwt
            (spread [("expires", JStr cookieExpires)]
                    (options (sessionTokenCookie o))))
  else
    token <- property "sessionToken" session ;;
    expires <- property "expires" session ;;
    emit (CookieSet (name (sessionTokenCookie o)) token
            (spread [("expires", js_or expires JNull)]
                    (options (sessionTokenCookie o)))).

(** [callbackHandler(sessionToken, profile, account, options)] and the
    destructuring of its answer. *)
Definition handle (sessionToken profile account : jsval)
  : M (jsval * jsval * jsval) :=
  r <- call HCallbackHandler [sessionToken; profile; account] ;;
  user <- property "user" r ;;
  session <- property "session" r ;;
  isNewUser <- property "isNewUser" r ;;
  ret (user, session, isNewUser).

Definition signin_event (user account isNewUser : jsval) : jsval :=
  JObj [("user", user); ("account", account); ("isNewUser", isNewUser)].

(** [v != s] for a string [s] and a value [v] that is a string or
    [undefined]. *)
Definition loose_neq (v : jsval) (s : string) : bool :=
  match v with
  | JStr c => negb (c =? s)
  | _ => true
  end.

(** The branch [type === 'discourse']. *)
Definition discourse (p : provider) (sessionToken : jsval) : M unit :=
  match nonempty (lookup "sso" (query req)), nonempty (lookup "sig" (query req)) with
  | Some sso, Some sig =>
      decoded_sso <- decode_uri sso ;;
      hash <- hmac_hex (secret p) (JStr decoded_sso) ;;
      if negb (sig =? hash) then
        emit (LogError "CALLBACK_OAUTH_ERROR" (JStr "Non-matching sig / sso keys")) ;;
        redirect (error_page "oAuthCallback") ;;
        finish
      else
        b <- returns FBufferFromBase64 (JStr sso) (lib_unbase64 sso) ;;
        inner_qstring <- returns FToStringUtf8 (JStr b) (lib_utf8 b) ;;
        ret_ <- parse inner_qstring ;;
        nonceHash <- hmac_hex (secret p) (get "nonce" ret_) ;;
        cookieNonceHash <-
          match cookies req with
          | Some c => ret (of_option (lookup (name (nonceHashCookie o)) c))
          | None => throw (TypeError "Cannot read properties of undefined")
          end ;;
        emit (CookieSet (name (nonceHashCookie o)) (JStr EmptyString)
                (spread [("maxAge", JNum (-1))] (options (nonceHashCookie o)))) ;;
        if loose_neq cookieNonceHash nonceHash
           || negb (truthy (JStr nonceHash))
           || negb (truthy cookieNonceHash) then
          emit (LogError "CALLBACK_OAUTH_ERROR" (JStr "Non-matching nonce")) ;;
          redirect (error_page "oAuthCallback") ;;
          finish
        else if negb (truthy (get "external_id" ret_))
                || negb (truthy (get "email" ret_))
                || negb (truthy (get "username" ret_)) then
          emit (LogError "CALLBACK_OAUTH_ERROR"
                  (JStr "Missing property on returned object")) ;;
          redirect (error_page "oAuthCallback") ;;
          finish
        else
          let profile :=
            JObj [("email", get "email" ret_);
                  ("name", js_or (get "name" ret_) (get "username" ret_));
                  ("image", js_or (get "avatar_url" ret_) (JStr EmptyString));
                  ("username", get "username" ret_);
                  ("id", get "external_id" ret_);
                  ("admin", JBool (is_string_true (get "admin" ret_)));
                  ("moderator", JBool (is_string_true (get "moderator" ret_)))] in
          let account :=
            JObj [("id", get "external_id" ret_);
                  ("type", JStr (type p));
                  ("provider", JStr (id p))] in
          signinCallbackResponse <- call HSignin [profile; account; JNull] ;;
          if is_false signinCallbackResponse then
            redirect (error_page "AccessDenied") ;;
            finish
          else
            '(user, session, isNewUser) <- handle sessionToken profile account ;;
            issue user account isNewUser session [] ;;
            call HDispatchEvent [signin_event user account isNewUser] ;;
            redirect destination ;;
            finish
  | _, _ =>
      emit (LogError "CALLBACK_OAUTH_ERROR" (JStr "Missing sso / sig query")) ;;
      redirect (error_page "oAuthCallback") ;;
      finish
  end.

(** The function [oAuthCallback] is given in the branch [type === 'oauth']. *)
Definition oauth_continuation (sessionToken error profile account OAuthProfile : jsval)
  : M unit :=
  try_catch
    (if truthy error then
       emit (LogError "CALLBACK_OAUTH_ERROR" error) ;;
       redirect (error_page "oAuthCallback") ;;
       finish
     else
       emit (LogDebug "OAUTH_CALLBACK_RESPONSE") ;;
       if negb (truthy profile) then
         redirect (baseUrl o ++ "/signin")%string ;;
         finish
       else
         signinCallbackResponse <- call HSignin [profile; account; OAuthProfile] ;;
         if is_false signinCallbackResponse then
           redirect (error_page "AccessDenied") ;;
           finish
         else
           '(user, session, isNewUser) <- handle sessionToken profile account ;;
           issue user account isNewUser session [OAuthProfile] ;;
           call HDispatchEvent [signin_event user account isNewUser] ;;
           match (if truthy isNewUser then nonempty (newUser o) else None) with
           | Some page =>
               redirect page ;;
               finish
           | None =>
               redirect destination ;;
               finish
           end)
    (fun error =>
       name <- name_of error ;;
       (if is_named "AccountNotLinkedError" name then
          emit (Status 302) ;;
          emit (SetHeader "Location" (error_page "OAuthAccountNotLinked"))
        else if is_named "CreateUserError" name then
          emit (Status 302) ;;
          emit (SetHeader "Location" (error_page "OAuthCreateAccount"))
        else
          emit (LogError "OAUTH_CALLBACK_HANDLER_ERROR" (js_of_exn error)) ;;
          emit (Status 302) ;;
          emit (SetHeader "Location" (error_page "Callback"))) ;;
       emit (End None) ;;
       finish).

(** The branch [type === 'oauth'].  The function given to [oAuthCallback]
    is an [async] one: what leaves it rejects its own promise, and the
    [try] around [oAuthCallback] catches only what [oAuthCallback] itself
    throws. *)
Definition oauth (sessionToken : jsval) : M unit :=
  emit OAuth ;;
  match oAuthCallback w with
  | OAuthThrows e =>
      try_catch
        (throw e)
        (fun error =>
           emit (LogError "OAUTH_CALLBACK_ERROR" (js_of_exn error)) ;;
           redirect (error_page "Callback") ;;
           finish)
  | OAuthCalls error profile account OAuthProfile =>
      oauth_continuation sessionToken error profile account OAuthProfile
  end.

(** The branch [type === 'email']. *)
Definition email (p : provider) (sessionToken : jsval) : M unit :=
  try_catch
    (if negb (adapter o) then
       emit (LogError "EMAIL_REQUIRES_ADAPTER_ERROR" JUndefined) ;;
       redirect (error_page "Configuration") ;;
       finish
     else
       adapterObject <- call HGetAdapter [] ;;
       match member "getVerificationRequest" adapterObject with
       | None =>
           throw (TypeError "Cannot destructure property 'getVerificationRequest'")
       | Some _ =>
           if is_object adapterObject then ret tt
           else throw (TypeError "getVerificationRequest is not a function")
       end ;;
       let verificationToken := of_option (lookup "token" (query req)) in
       let email := of_option (lookup "email" (query req)) in
       invite <-
         call HGetVerificationRequest
           [email; verificationToken; JStr (optSecret o); js_of_provider p] ;;
       if negb (truthy invite) then
         redirect (error_page "Verification") ;;
         finish
       else
         call HDeleteVerificationRequest
           [email; verificationToken; JStr (optSecret o); js_of_provider p] ;;
         found <- call HGetUserByEmail [email] ;;
         let profile := js_or found (JObj [("email", email)]) in
         let account :=
           JObj [("id", JStr (id p)); ("type", JStr "email");
                 ("providerAccountId", email)] in
         signinCallbackResponse <- call HSignin [profile; account; JNull] ;;
         if is_false signinCallbackResponse then
           redirect (error_page "AccessDenied") ;;
           finish
         else
           '(user, session, isNewUser) <- handle sessionToken profile account ;;
           issue user account isNewUser session [] ;;
           call HDispatchEvent [signin_event user account isNewUser] ;;
           match (if truthy isNewUser then nonempty (newUser o) else None) with
           | Some page =>
               redirect page ;;
               finish
           | None =>
               match nonempty (optCallbackUrl o) with
               | Some u => redirect u
               | None => redirect (site o)
               end ;;
               finish
           end)
    (fun error =>
       name <- name_of error ;;
       (if is_named "CreateUserError" name then
          emit (Status 302) ;;
          emit (SetHeader "Location" (error_page "EmailCreateAccount"))
        else
          emit (Status 302) ;;
          emit (SetHeader "Location" (error_page "Callback")) ;;
          emit (LogError "CALLBACK_EMAIL_ERROR" (js_of_exn error))) ;;
       emit (End None) ;;
       finish).

(** The branch [type === 'credentials' && req.method === 'POST']. *)
Definition credentials (p : provider) : M unit :=
  if negb (useJwtSession o) then
    emit (LogError "CALLBACK_CREDENTIALS_JWT_ERROR"
            (JStr "Signin in with credentials is only supported if JSON Web Tokens are enabled")) ;;
    redirect (error_page "Configuration") ;;
    finish
  else if negb (authorize p) then
    emit (LogError "CALLBACK_CREDENTIALS_HANDLER_ERROR"
            (JStr "Must define an authorize() handler to use credentials authentication provider")) ;;
    redirect (error_page "Configuration") ;;
    finish
  else
    let credentials := body req in
    user <-
      try_catch
        (call HAuthorize [credentials])
        (fun _ =>
           redirect (error_page "Configuration") ;;
           finish) ;;
    let account := JObj [("id", JStr (id p)); ("type", JStr "credentials")] in
    if negb (truthy user) then
      redirect (error_page "CredentialsSignin" ++ "&provider="
                  ++ lib_encodeURIComponent (id p))%string ;;
      finish
    else
      signinCallbackResponse <- call HSignin [user; account; credentials] ;;
      if is_false signinCallbackResponse then
        redirect (error_page "AccessDenied") ;;
        finish
      else
        let defaultJwtPayload := JObj [("user", user); ("account", account)] in
        jwtPayload <- call HJwt [defaultJwtPayload] ;;
        newEncodedJwt <-
          call HJwtEncode
            [JObj [("secret", jwtSecret o); ("token", jwtPayload);
                   ("maxAge", JNum (sessionMaxAge o))]] ;;
        cookieExpires <- expiry ;;
        emit (CookieSet (name (sessionTokenCookie o)) newEncodedJwt
                (spread [("expires", JStr cookieExpires)]
                        (options (sessionTokenCookie o)))) ;;
        call HDispatchEvent [JObj [("user", user); ("account", account)]] ;;
        match nonempty (optCallbackUrl o) with
        | Some u => redirect u
        | None => redirect (site o)
        end ;;
        finish.

(** The handler.  [providers[providerName]] may be undefined, and reading
    its [type] then throws; it may also be a property that the object
    inherits, which has no [type]. *)
Definition callback : M unit :=
  match find_provider (providerName o) (providers o) with
  | None =>
      if inherited (providerName o) then
        emit (Status 500) ;;
        emit (End (Some "Error: Callback for provider type undefined not supported")) ;;
        finish
      else throw (TypeError "Cannot destructure property 'type' of undefined")
  | Some p =>
      let sessionToken :=
        match cookies req with
        | Some c => of_option (lookup (name (sessionTokenCookie o)) c)
        | None => JNull
        end in
      if type p =? "discourse" then discourse p sessionToken
      else if type p =? "oauth" then oauth sessionToken
      else if type p =? "email" then email p sessionToken
      else if (type p =? "credentials") && (method req =? "POST") then credentials p
      else
        emit (Status 500) ;;
        emit (End (Some ("Error: Callback for provider type " ++ type p
                           ++ " not supported")%string)) ;;
        finish
  end.

End Handlers.

(** ** What a run shows *)

Definition trace {A} (m : M A) : list event := fst m.

(** The exception the handler's promise is rejected with, if any. *)
Definition rejected {A} (m : M A) : option exn :=
  match snd m with
  | Raise e => Some e
  | _ => None
  end.

(** The status and the [Location] header of the response: the last ones
    written. *)
Fixpoint status (t : list event) : option Z :=
  match t with
  | [] => None
  | e :: r =>
      match status r with
      | Some c => Some c
      | None => match e with Status c => Some c | _ => None end
      end
  end.

Fixpoint location (t : list event) : option string :=
  match t with
  | [] => None
  | e :: r =>
      match location r with
      | Some l => Some l
      | None =>
          match e with
          | SetHeader h l => if h =? "Location" then Some l else None
          | _ => None
          end
      end
  end.

(** The cookies written, in order. *)
Fixpoint cookie_writes (t : list event) : list (string * jsval * obj) :=
  match t with
  | [] => []
  | CookieSet n v opts :: r => (n, v, opts) :: cookie_writes r
  | _ :: r => cookie_writes r
  end.

(** The hooks called, in order. *)
Fixpoint hooks_called (t : list event) : list hook :=
  match t with
  | [] => []
  | Call h _ _ :: r => h :: hooks_called r
  | _ :: r => hooks_called r
  end.

Definition hook_eqb (a b : hook) : bool :=
  match a, b with
  | HSignin, HSignin | HJwt, HJwt | HJwtEncode, HJwtEncode
  | HCallbackHandler, HCallbackHandler | HDispatchEvent, HDispatchEvent
  | HAuthorize, HAuthorize | HGetAdapter, HGetAdapter
  | HGetVerificationRequest, HGetVerificationRequest
  | HDeleteVerificationRequest, HDeleteVerificationRequest
  | HGetUserByEmail, HGetUserByEmail => true
  | _, _ => false
  end.

Definition called (h : hook) (t : list event) : bool :=
  existsb (hook_eqb h) (hooks_called t).

(** How the first call of a hook ended, and what the handler did after it. *)
Fixpoint outcome (h : hook) (t : list event) : option hres :=
  match t with
  | [] => None
  | Call h' _ r :: t' => if hook_eqb h h' then Some r else outcome h t'
  | _ :: t' => outcome h t'
  end.

Fixpoint after (h : hook) (t : list event) : list event :=
  match t with
  | [] => []
  | Call h' _ _ :: t' => if hook_eqb h h' then t' else after h t'
  | _ :: t' => after h t'
  end.

(** Whether [logger.error] was given the text [msg]. *)
Definition logged (msg : string) (t : list event) : bool :=
  existsb (fun e => match e with
                    | LogError _ (JStr m) => m =? msg
                    | _ => false
                    end) t.

(** Whether [logger.error] was called with the code [code]. *)
Definition reported (code : string) (t : list event) : bool :=
  existsb (fun e => match e with
                    | LogError c _ => c =? code
                    | _ => false
                    end) t.

(** The decoding of the SSO payload: base64, UTF-8, query string. *)
Definition is_decoding (e : event) : bool :=
  match e with
  | Lib FBufferFromBase64 _ _ | Lib FToStringUtf8 _ _ | Lib FParse _ _ => true
  | _ => false
  end.

(** No event that satisfies [q] comes before the first one that satisfies
    [p]. *)
Fixpoint precedes (p q : event -> bool) (t : list event) : bool :=
  match t with
  | [] => true
  | e :: r => if q e then false else if p e then true else precedes p q r
  end.

Definition is_call (h : hook) (e : event) : bool :=
  match e with
  | Call h' _ _ => hook_eqb h h'
  | _ => false
  end.

Definition is_cookie (n : string) (e : event) : bool :=
  match e with
  | CookieSet n' _ _ => n =? n'
  | _ => false
  end.

Definition is_redirect (e : event) : bool :=
  match e with
  | Status _ | SetHeader _ _ => true
  | _ => false
  end.

(** The body the response was ended with. *)
Fixpoint sent (t : list event) : option string :=
  match t with
  | [] => None
  | End b :: _ => b
  | _ :: r => sent r
  end.

(** Whether the character occurs nowhere in the string. *)
Fixpoint lacks (c : ascii) (s : string) : bool :=
  match s with
  | EmptyString => true
  | String x r => negb (Ascii.eqb x c) && lacks c r
  end.

(** The step that follows an accepted sign-in: the credentials branch
    builds the token at once, the other branches first resolve the user. *)
Definition next_step (p : provider) : hook :=
  if type p =? "credentials" then HJwt else HCallbackHandler.

(** The steps of the email branch that come after the verification record
    is deleted. *)
Definition is_later_step (n : string) (e : event) : bool :=
  is_call HGetUserByEmail e || is_call HSignin e || is_call HCallbackHandler e
  || is_call HJwt e || is_call HJwtEncode e || is_call HDispatchEvent e
  || is_cookie n e.

Definition is_hmac_of (d : string) (e : event) : bool :=
  match e with
  | Lib FHmac (JStr s) _ => s =? d
  | _ => false
  end.

(** ** Concrete configurations, requests and applications *)

Module Scenario.

Definition discourse_provider : provider :=
  {| id := "discourse"; type := "discourse"; secret := "s3cret";
     authorize := false; callbackUrl := "https://app/x";
     url := "https://forum.example" |}.

Definition github_provider : provider :=
  {| id := "github"; type := "oauth"; secret := "gh-secret";
     authorize := false; callbackUrl := "https://app/api/auth/callback/github";
     url := EmptyString |}.

Definition email_provider : provider :=
  {| id := "email"; type := "email"; secret := EmptyString;
     authorize := false; callbackUrl := "https://app/api/auth/callback/email";
     url := EmptyString |}.

Definition credentials_provider : provider :=
  {| id := "credentials"; type := "credentials"; secret := EmptyString;
     authorize := true; callbackUrl := "https://app/api/auth/callback/credentials";
     url := EmptyString |}.

Definition saml_provider : provider :=
  {| id := "saml"; type := "saml"; secret := EmptyString;
     authorize := false; callbackUrl := "https://app/api/auth/callback/saml";
     url := EmptyString |}.

(** Token sessions, a landing page for new users, and the provider
    [selected] of the request. *)
Definition settings (selected : string) : config :=
  {| providerName := selected;
     providers := [("discourse", discourse_provider); ("github", github_provider);
                   ("email", email_provider); ("credentials", credentials_provider);
                   ("saml", saml_provider)];
     adapter := true;
     site := "https://app";
     optSecret := "app-secret";
     baseUrl := "https://app/api/auth";
     sessionTokenCookie :=
       {| name := "next-auth.session-token"; options := [("path", JStr "/")] |};
     nonceHashCookie :=
       {| name := "next-auth.nonce-hash"; options := [("path", JStr "/")] |};
     optCallbackUrl := Some "https://app/home";
     newUser := Some "https://app/welcome";
     jwtSecret := JStr "jwt-secret";
     useJwtSession := true;
     sessionMaxAge := 2592000 |}.

Definition ann : jsval := JObj [("id", JNum 1); ("name", JStr "ann")].

(** An application whose hooks all succeed; the user is a new one. *)
Definition app : world :=
  {| run := fun h args =>
       match h with
       | HSignin => Ret (JBool true)
       | HJwt => Ret (hd JUndefined args)
       | HJwtEncode => Ret (JStr "signed.jwt")
       | HCallbackHandler =>
           Ret (JObj [("user", ann);
                      ("session",
                       JObj [("sessionToken", JStr "opaque"); ("expires", JNull)]);
                      ("isNewUser", JBool true)])
       | HDispatchEvent => Ret JUndefined
       | HAuthorize => Ret ann
       | HGetAdapter => Ret (JObj [])
       | HGetVerificationRequest => Ret (JObj [("identifier", JStr "a@b.com")])
       | HDeleteVerificationRequest => Ret JUndefined
       | HGetUserByEmail => Ret JNull
       end;
     oAuthCallback :=
       OAuthCalls JNull ann
         (JObj [("provider", JStr "github"); ("type", JStr "oauth"); ("id", JNum 7)])
         (JObj [("login", JStr "ann")]);
     now := 1600000000000 |}.

(** The application [base] with the hook [h] ending in [r]. *)
Definition answering (h : hook) (r : hres) (base : world) : world :=
  {| run := fun h' args => if hook_eqb h h' then r else run base h' args;
     oAuthCallback := oAuthCallback base;
     now := now base |}.

(** The application [base] behind an OAuth transport that reports [e]. *)
Definition failing_transport (e : jsval) (base : world) : world :=
  {| run := run base;
     oAuthCallback := OAuthCalls e JUndefined JUndefined JUndefined;
     now := now base |}.

Definition boom : exn := Exn "Error" "boom".

(** A callback of the SSO provider with the payload [sso], the signature
    [sig] and the nonce binding [binding] in its cookie. *)
Definition sso_callback (sso sig binding : string) : request :=
  {| method := "GET";
     query := [("sso", sso); ("sig", sig)];
     cookies := Some [("next-auth.nonce-hash", binding)];
     body := JUndefined |}.

(** The binding of the nonce [abc123] under the secret [s3cret]. *)
Definition binding_abc123 : string :=
  "c769096b4d5745c128ffb221dc2e2d5cb38b4a1cae423cf413b12cbef730bc57".

(** [nonce=abc123&external_id=42&email=a@b.com&username=ann], signed. *)
Definition profile_sso : string :=
  "bm9uY2U9YWJjMTIzJmV4dGVybmFsX2lkPTQyJmVtYWlsPWFAYi5jb20mdXNlcm5hbWU9YW5u".
Definition profile_sig : string :=
  "1deefd68d01eb3bcf589f164d3da1eeb07bd2dcce21c3974ea95a51838cc0109".

(** The same signature with its last character changed. *)
Definition corrupted_sig : string :=
  "1deefd68d01eb3bcf589f164d3da1eeb07bd2dcce21c3974ea95a51838cc0108".

(** [external_id=42&email=a@b.com&username=ann], signed: no nonce. *)
Definition no_nonce_sso : string :=
  "ZXh0ZXJuYWxfaWQ9NDImZW1haWw9YUBiLmNvbSZ1c2VybmFtZT1hbm4=".
Definition no_nonce_sig : string :=
  "2816a82d937dfa894b19c2594c29e3f9b34b4dac046e0c3de1955015a7719ee7".

Definition credentials_post : request :=
  {| method := "POST"; query := []; cookies := Some [];
     body := JObj [("username", JStr "ann"); ("password", JStr "pw")] |}.

Definition credentials_get : request :=
  {| method := "GET"; query := []; cookies := Some []; body := JUndefined |}.

Definition email_link : request :=
  {| method := "GET"; query := [("token", "t0k3n"); ("email", "a@b.com")];
     cookies := Some []; body := JUndefined |}.

Definition oauth_return : request :=
  {| method := "GET"; query := [("code", "c0de")]; cookies := Some [];
     body := JUndefined |}.

End Scenario.

(** The characters of a hexadecimal digest or nonce. *)
Definition is_hex (c : ascii) : bool :=
  existsb (Ascii.eqb c) (list_ascii_of_string "0123456789abcdef").

(** ** Further observations on a run *)

(** How many events of a kind a trace holds. *)
Definition count (p : event -> bool) (t : list event) : nat :=
  length (filter p t).

Definition is_status (e : event) : bool :=
  match e with Status _ => true | _ => false end.

Definition is_location (e : event) : bool :=
  match e with SetHeader h _ => h =? "Location" | _ => false end.

Definition is_end (e : event) : bool :=
  match e with End _ => true | _ => false end.

Definition is_done (e : event) : bool :=
  match e with Done => true | _ => false end.



(** Whether no hook occurs twice in the list. *)
Fixpoint distinct (l : list hook) : bool :=
  match l with
  | [] => true
  | h :: r => negb (existsb (hook_eqb h) r) && distinct r
  end.

(** The arguments of the first call of a hook. *)
Fixpoint arguments (h : hook) (t : list event) : option (list jsval) :=
  match t with
  | [] => None
  | Call h' args _ :: t' => if hook_eqb h h' then Some args else arguments h t'
  | _ :: t' => arguments h t'
  end.

(** The exception a hook ended with, if one did. *)
Fixpoint thrown (t : list event) : option exn :=
  match t with
  | [] => None
  | Call _ _ (Thr e) :: _ => Some e
  | _ :: t' => thrown t'
  end.

(** The cookie that clears the nonce binding. *)
Definition nonce_clearing (o : config) : string * jsval * obj :=
  (name (nonceHashCookie o), JStr EmptyString,
   spread [("maxAge", JNum (-1))] (options (nonceHashCookie o))).

(** The error code of the page an exception named [n] leads to, in the
    oauth branch and in the email branch. *)
Definition oauth_error_code (n : jsval) : string :=
  if is_named "AccountNotLinkedError" n then "OAuthAccountNotLinked"
  else if is_named "CreateUserError" n then "OAuthCreateAccount"
  else "Callback".

Definition email_error_code (n : jsval) : string :=
  if is_named "CreateUserError" n then "EmailCreateAccount" else "Callback".

(** The session token of the request: [req.cookies ?
    req.cookies[cookies.sessionToken.name] : null]. *)
Definition current_session (req : request) (o : config) : jsval :=
  match cookies req with
  | Some c => of_option (lookup (name (sessionTokenCookie o)) c)
  | None => JNull
  end.

(** The fields of the payload of an SSO callback, as the handler decodes
    them. *)
Definition sso_fields {L : NodeLib} (sso : string) : obj :=
  lib_parse (lib_utf8 (lib_unbase64 sso)).

(** Whether the handler was allowed to go on by the sign-in hook. *)
Definition allowed (t : list event) : bool :=
  match outcome HSignin t with
  | Some (Ret v) => negb (is_false v)
  | _ => false
  end.

(** Whether the first list begins the second. *)
Fixpoint begins (l m : list hook) : bool :=
  match l, m with
  | [], _ => true
  | h :: l', k :: m' => hook_eqb h k && begins l' m'
  | _ :: _, [] => false
  end.

(** The hooks a callback of the provider calls when nothing stops it, in
    order. *)
Definition session_hooks (o : config) : list hook :=
  if useJwtSession o then [HJwt; HJwtEncode; HDispatchEvent] else [HDispatchEvent].

Definition hook_sequence (o : config) (p : provider) : list hook :=
  if type p =? "discourse" then HSignin :: HCallbackHandler :: session_hooks o
  else if type p =? "oauth" then HSignin :: HCallbackHandler :: session_hooks o
  else if type p =? "email" then
    HGetAdapter :: HGetVerificationRequest :: HDeleteVerificationRequest
      :: HGetUserByEmail :: HSignin :: HCallbackHandler :: session_hooks o
  else if type p =? "credentials" then
    [HAuthorize; HSignin; HJwt; HJwtEncode; HDispatchEvent]
  else [].

(** Whether every byte of the string is below 128. *)
Fixpoint ascii_only (s : string) : bool :=
  match s with
  | EmptyString => true
  | String c r => (N_of_ascii c <? 128)%N && ascii_only r
  end.

(** ** The provider of [providers/discourse.js] *)

Module Provider.

(** A property of a provider object: a value, or a function of one
    argument. *)
Inductive entry : Type :=
| Data (v : jsval)
| Method (f : jsval -> hres).

Definition record : Type := list (string * entry).

Fixpoint field (k : string) (r : record) : option entry :=
  match r with
  | [] => None
  | (k', v) :: r' => if k =? k' then Some v else field k r'
  end.

(** [r[k] = v] and [{ ...base, ...r }], as [set] and [spread] on values. *)
Fixpoint put (k : string) (v : entry) (r : record) : record :=
  match r with
  | [] => [(k, v)]
  | (k', v') :: r' => if k =? k' then (k, v) :: r' else (k', v') :: put k v r'
  end.

Definition extend (base r : record) : record :=
  fold_left (fun acc kv => put (fst kv) (snd kv) acc) r base.

(** The [profile] function of the provider: [profile.id] throws when the
    profile is [undefined] or [null]. *)
Definition profile (v : jsval) : hres :=
  match member "id" v, member "name" v, member "login" v,
        member "email" v, member "avatar_url" v with
  | Some i, Some n, Some l, Some e, Some a =>
      Ret (JObj [("id", i); ("name", js_or n l); ("email", e); ("image", a)])
  | _, _, _, _, _ => Thr (TypeError "Cannot read properties of undefined")
  end.

Definition defaults : record :=
  [("id", Data (JStr "discourse")); ("name", Data (JStr "Discourse"));
   ("type", Data (JStr "discourse")); ("version", Data (JStr "1.0"));
   ("profile", Method profile)].

(** [Discourse(options)] for an options object whose properties are
    values; without one, reading [discourse_url] throws. *)
Definition Discourse (options : option obj) : exn + record :=
  match options with
  | None => inl (TypeError "Cannot destructure property 'discourse_url'")
  | Some o => inr (extend defaults (map (fun kv => (fst kv, Data (snd kv))) o))
  end.

End Provider.

(** ** Further configurations and applications *)

Module Cases.
Import Scenario.

(** The configuration [o] with sessions kept in the database. *)
Definition database_sessions (o : config) : config :=
  {| providerName := providerName o; providers := providers o;
     adapter := adapter o; site := site o; optSecret := optSecret o;
     baseUrl := baseUrl o; sessionTokenCookie := sessionTokenCookie o;
     nonceHashCookie := nonceHashCookie o; optCallbackUrl := optCallbackUrl o;
     newUser := newUser o; jwtSecret := jwtSecret o;
     useJwtSession := false; sessionMaxAge := sessionMaxAge o |}.

(** The configuration [o] without an adapter. *)
Definition without_adapter (o : config) : config :=
  {| providerName := providerName o; providers := providers o;
     adapter := false; site := site o; optSecret := optSecret o;
     baseUrl := baseUrl o; sessionTokenCookie := sessionTokenCookie o;
     nonceHashCookie := nonceHashCookie o; optCallbackUrl := optCallbackUrl o;
     newUser := newUser o; jwtSecret := jwtSecret o;
     useJwtSession := useJwtSession o; sessionMaxAge := sessionMaxAge o |}.

(** The configuration [o] with the options [nonce] and [session] on its two
    cookies. *)
Definition with_cookie_options (nonce session : obj) (o : config) : config :=
  {| providerName := providerName o; providers := providers o;
     adapter := adapter o; site := site o; optSecret := optSecret o;
     baseUrl := baseUrl o;
     sessionTokenCookie :=
       {| name := name (sessionTokenCookie o); options := session |};
     nonceHashCookie :=
       {| name := name (nonceHashCookie o); options := nonce |};
     optCallbackUrl := optCallbackUrl o;
     newUser := newUser o; jwtSecret := jwtSecret o;
     useJwtSession := useJwtSession o; sessionMaxAge := sessionMaxAge o |}.

(** The configuration [o] for a callback of the provider [p]. *)
Definition offering (p : provider) (o : config) : config :=
  {| providerName := id p; providers := (id p, p) :: providers o;
     adapter := adapter o; site := site o; optSecret := optSecret o;
     baseUrl := baseUrl o; sessionTokenCookie := sessionTokenCookie o;
     nonceHashCookie := nonceHashCookie o; optCallbackUrl := optCallbackUrl o;
     newUser := newUser o; jwtSecret := jwtSecret o;
     useJwtSession := useJwtSession o; sessionMaxAge := sessionMaxAge o |}.

(** A credentials provider without an [authorize] function. *)
Definition login_provider : provider :=
  {| id := "login"; type := "credentials"; secret := EmptyString;
     authorize := false; callbackUrl := "https://app/api/auth/callback/login";
     url := EmptyString |}.

(** The application [base] behind an OAuth transport that throws [e]. *)
Definition broken_transport (e : exn) (base : world) : world :=
  {| run := run base; oAuthCallback := OAuthThrows e; now := now base |}.

Definition not_linked : exn := Exn "AccountNotLinkedError" "linked to another account".
Definition no_user : exn := Exn "CreateUserError" "duplicate".

(** The configuration [o] with sessions that last [seconds]. *)
Definition with_lifetime (seconds : Z) (o : config) : config :=
  {| providerName := providerName o; providers := providers o;
     adapter := adapter o; site := site o; optSecret := optSecret o;
     baseUrl := baseUrl o; sessionTokenCookie := sessionTokenCookie o;
     nonceHashCookie := nonceHashCookie o; optCallbackUrl := optCallbackUrl o;
     newUser := newUser o; jwtSecret := jwtSecret o;
     useJwtSession := useJwtSession o; sessionMaxAge := seconds |}.

(** A promise rejected with [null]. *)
Definition nothing : exn := Thrown JNull.

(** The value a call returned. *)
Definition value_of (r : hres) : jsval :=
  match r with
  | Ret v => v
  | Thr _ => JUndefined
  end.

(** What the initiation hands out for the random bytes [ab c1 23]:
    [nonce=abc123&return_sso_url=https://app/x], signed. *)
Definition initiation_sso : string :=
  "bm9uY2U9YWJjMTIzJnJldHVybl9zc29fdXJsPWh0dHBzOi8vYXBwL3g=".
Definition initiation_sig : string :=
  "5b0ff02fe3a9f0bb9ac8862d54e0d0102b9e924d6aa2654e45c50392cb5c74dd".

End Cases.

(** * Facts about the library models *)

Module BytesFacts.

Lemma to_of_string (s : string) : Bytes.to_string (Bytes.of_string s) = s.
Proof.
  unfold Bytes.to_string, Bytes.of_string. rewrite map_map.
  rewrite (map_ext _ (fun a => a)) by apply ascii_N_embedding.
  rewrite map_id. apply string_of_list_ascii_of_string.
Qed.

End BytesFacts.

Module Base64Facts.
Import Base64.
Local Open Scope N_scope.

Definition sextet_ok (x : N) : bool :=
  match unbase64 (char_of x) with
  | Some y => (x =? y) && negb (Ascii.eqb (char_of x) "="%char)
              && negb (Ascii.eqb (char_of x) "%"%char)
  | None => false
  end.

Lemma table : forallb sextet_ok (map N.of_nat (seq 0 64)) = true.
Proof. vm_compute. reflexivity. Qed.

Lemma sextet (x : N) :
  x < 64 ->
  unbase64 (char_of x) = Some x
  /\ Ascii.eqb (char_of x) "="%char = false
  /\ Ascii.eqb (char_of x) "%"%char = false.
Proof.
  intros H.
  assert (I : In x (map N.of_nat (seq 0 64))).
  { apply in_map_iff. exists (N.to_nat x). split; [apply N2Nat.id|].
    apply in_seq. lia. }
  pose proof (proj1 (forallb_forall _ _) table x I) as T.
  unfold sextet_ok in T. destruct (unbase64 (char_of x)); [|discriminate].
  apply andb_prop in T. destruct T as [T T3]. apply andb_prop in T. destruct T as [T1 T2].
  apply N.eqb_eq in T1. subst. apply negb_true_iff in T2, T3. auto.
Qed.

Lemma byte_bound (a : ascii) : N_of_ascii a < 256.
Proof. apply N_ascii_bounded. Qed.

Lemma q1 x : x < 256 -> x / 4 < 64.
Proof. intros. apply N.Div0.div_lt_upper_bound. lia. Qed.
Lemma q2 x y : x < 256 -> y < 256 -> (x mod 4) * 16 + y / 16 < 64.
Proof.
  intros. pose proof (N.mod_lt x 4). assert (y / 16 < 16) by (apply N.Div0.div_lt_upper_bound; lia). lia. 
Qed.
Lemma q3 y z : y < 256 -> z < 256 -> (y mod 16) * 4 + z / 64 < 64.
Proof.
  intros. pose proof (N.mod_lt y 16). assert (z / 64 < 4) by (apply N.Div0.div_lt_upper_bound; lia). lia. 
Qed.
Lemma q4 z : z mod 64 < 64.
Proof. apply N.mod_lt. lia. Qed.

Lemma r1 x y : x < 256 -> y < 256 -> (x / 4) * 4 + ((x mod 4) * 16 + y / 16) / 16 = x.
Proof.
  intros. 
  assert (y / 16 < 16) by (apply N.Div0.div_lt_upper_bound; lia).
  replace ((x mod 4) * 16 + y / 16) with (y / 16 + (x mod 4) * 16) by lia.
  rewrite N.div_add by lia. rewrite (N.div_small (y / 16)) by lia.
  pose proof (N.div_mod x 4). lia.
Qed.
Lemma r2 x y z : y < 256 -> z < 256 ->
  (((x mod 4) * 16 + y / 16) mod 16) * 16 + ((y mod 16) * 4 + z / 64) / 4 = y.
Proof.
  intros.
  assert (y / 16 < 16) by (apply N.Div0.div_lt_upper_bound; lia).
  assert (z / 64 < 4) by (apply N.Div0.div_lt_upper_bound; lia).
  replace ((x mod 4) * 16 + y / 16) with (y / 16 + (x mod 4) * 16) by lia.
  rewrite N.Div0.mod_add. rewrite (N.mod_small (y / 16)) by lia.
  replace ((y mod 16) * 4 + z / 64) with (z / 64 + (y mod 16) * 4) by lia.
  rewrite N.div_add by lia. rewrite (N.div_small (z / 64)) by lia.
  pose proof (N.div_mod y 16). lia.
Qed.
Lemma r3 y z : z < 256 -> (((y mod 16) * 4 + z / 64) mod 4) * 64 + z mod 64 = z.
Proof.
  intros.
  assert (z / 64 < 4) by (apply N.Div0.div_lt_upper_bound; lia).
  replace ((y mod 16) * 4 + z / 64) with (z / 64 + (y mod 16) * 4) by lia.
  rewrite N.Div0.mod_add. rewrite (N.mod_small (z / 64)) by lia.
  pose proof (N.div_mod z 64). lia.
Qed.
Lemma r2' x y : y < 256 -> 
  (((x mod 4) * 16 + y / 16) mod 16) * 16 + ((y mod 16) * 4) / 4 = y.
Proof.
  intros.
  assert (y / 16 < 16) by (apply N.Div0.div_lt_upper_bound; lia).
  replace ((x mod 4) * 16 + y / 16) with (y / 16 + (x mod 4) * 16) by lia.
  rewrite N.Div0.mod_add. rewrite (N.mod_small (y / 16)) by lia.
  rewrite N.div_mul by lia.
  pose proof (N.div_mod y 16). lia.
Qed.
Lemma r1' x : x < 256 -> (x / 4) * 4 + ((x mod 4) * 16) / 16 = x.
Proof.
  intros. rewrite N.div_mul by lia. pose proof (N.div_mod x 4). lia.
Qed.
Lemma q2' x : (x mod 4) * 16 < 64.
Proof. pose proof (N.mod_lt x 4). lia. Qed.
Lemma q3' y : (y mod 16) * 4 < 64.
Proof. pose proof (N.mod_lt y 16). lia. Qed.

Lemma sextets_cons (x : N) (r : string) :
  x < 64 -> sextets (String (char_of x) r) = x :: sextets r.
Proof.
  intros H. destruct (sextet x H) as (U & E & _).
  cbn [sextets]. now rewrite E, U.
Qed.

Lemma sextets_encode (n : nat) :
  forall s, (String.length s <= n)%nat ->
  bytes_of (sextets (encode s)) = Bytes.of_string s.
Proof.
  induction n as [|n IH]; intros s Hs.
  - destruct s; [reflexivity | cbn in Hs; lia].
  - destruct s as [|a [|b [|c r]]].
    + reflexivity.
    + pose proof (byte_bound a).
      cbn [encode]. rewrite !sextets_cons by auto using q1, q2'.
      cbn [sextets Ascii.eqb Bool.eqb bytes_of]. rewrite r1' by auto. reflexivity.
    + pose proof (byte_bound a). pose proof (byte_bound b).
      cbn [encode]. rewrite !sextets_cons by auto using q1, q2, q3'.
      cbn [sextets Ascii.eqb Bool.eqb bytes_of].
      rewrite r1, r2' by auto. reflexivity.
    + pose proof (byte_bound a). pose proof (byte_bound b). pose proof (byte_bound c).
      cbn [encode]. rewrite !sextets_cons by auto using q1, q2, q3, q4.
      cbn [bytes_of]. rewrite r1, r2, r3 by auto.
      rewrite IH by (cbn in Hs; lia). reflexivity.
Qed.

(** Decoding what [Buffer] encoded gives the bytes back. *)
Lemma decode_encode (s : string) : decode (encode s) = s.
Proof.
  unfold decode. rewrite (sextets_encode (String.length s)) by lia.
  apply BytesFacts.to_of_string.
Qed.

(** The encoding has no [%], and is empty only for the empty string. *)
Lemma encode_lacks_percent (n : nat) :
  forall s, (String.length s <= n)%nat -> lacks "%"%char (encode s) = true.
Proof.
  induction n as [|n IH]; intros s Hs.
  - destruct s; [reflexivity | cbn in Hs; lia].
  - destruct s as [|a [|b [|c r]]]; [reflexivity | | |].
    + pose proof (byte_bound a). cbn [encode lacks].
      rewrite (proj2 (proj2 (sextet _ (q1 _ H)))), (proj2 (proj2 (sextet _ (q2' (N_of_ascii a))))).
      reflexivity.
    + pose proof (byte_bound a). pose proof (byte_bound b). cbn [encode lacks].
      rewrite (proj2 (proj2 (sextet _ (q1 _ H)))), (proj2 (proj2 (sextet _ (q2 _ _ H H0)))),
        (proj2 (proj2 (sextet _ (q3' (N_of_ascii b))))).
      reflexivity.
    + pose proof (byte_bound a). pose proof (byte_bound b). pose proof (byte_bound c).
      cbn [encode lacks].
      rewrite (proj2 (proj2 (sextet _ (q1 _ H)))), (proj2 (proj2 (sextet _ (q2 _ _ H H0)))),
        (proj2 (proj2 (sextet _ (q3 _ _ H0 H1)))), (proj2 (proj2 (sextet _ (q4 (N_of_ascii c))))).
      cbn [negb andb]. apply IH. cbn in Hs. lia.
Qed.

Lemma encode_not_empty (s : string) : s <> EmptyString -> encode s <> EmptyString.
Proof. destruct s as [|a [|b [|c r]]]; cbn [encode]; congruence. Qed.

End Base64Facts.

Module UriFacts.
Import Uri.

(** A string without [%] decodes to itself. *)
Lemma decode_fuel_plain (n : nat) :
  forall s, (String.length s < n)%nat -> lacks "%"%char s = true ->
  decode_fuel n s = Some s.
Proof.
  induction n as [|n IH]; intros s Hn Hs; [lia|].
  destruct s as [|c r]; [reflexivity|].
  cbn [lacks] in Hs. apply andb_prop in Hs. destruct Hs as [Hc Hr].
  apply negb_true_iff in Hc. cbn [decode_fuel]. rewrite Hc.
  rewrite IH by (cbn in Hn; auto; lia). reflexivity.
Qed.

Lemma decodeURIComponent_plain (s : string) :
  lacks "%"%char s = true -> decodeURIComponent s = Some s.
Proof. intros H. apply decode_fuel_plain; [lia | exact H]. Qed.

End UriFacts.


Module QuerystringFacts.
Import Querystring.

Lemma split_plain (sep : ascii) (s : string) :
  lacks sep s = true -> split sep s = [s].
Proof.
  induction s as [|c r IH]; [reflexivity|].
  cbn [lacks split]. intros H. apply andb_prop in H. destruct H as [Hc Hr].
  apply negb_true_iff in Hc. rewrite Hc, IH by exact Hr. reflexivity.
Qed.

Lemma split_app (sep : ascii) (a b : string) :
  lacks sep a = true -> split sep (a ++ String sep b) = a :: split sep b.
Proof.
  induction a as [|c r IH]; cbn [lacks split append].
  - intros _. now rewrite Ascii.eqb_refl.
  - intros H. apply andb_prop in H. destruct H as [Hc Hr].
    apply negb_true_iff in Hc. rewrite Hc, IH by exact Hr. reflexivity.
Qed.

Lemma cut_app (eq : ascii) (a b : string) :
  lacks eq a = true -> cut eq (a ++ String eq b) = (a, b).
Proof.
  induction a as [|c r IH]; cbn [lacks cut append].
  - intros _. now rewrite Ascii.eqb_refl.
  - intros H. apply andb_prop in H. destruct H as [Hc Hr].
    apply negb_true_iff in Hc. rewrite Hc, IH by exact Hr. reflexivity.
Qed.

Lemma plus_to_space_plain (s : string) :
  lacks "+"%char s = true -> plus_to_space s = s.
Proof.
  induction s as [|c r IH]; [reflexivity|].
  cbn [lacks plus_to_space]. intros H. apply andb_prop in H. destruct H as [Hc Hr].
  apply negb_true_iff in Hc. rewrite Hc, IH by exact Hr. reflexivity.
Qed.

Lemma unescape_plain (s : string) :
  lacks "%"%char s = true -> unescape s = s.
Proof.
  intros H. unfold unescape. now rewrite UriFacts.decodeURIComponent_plain.
Qed.

Lemma lacks_app (c : ascii) (a b : string) :
  lacks c (a ++ b) = lacks c a && lacks c b.
Proof.
  induction a as [|x r IH]; [reflexivity|].
  cbn [append lacks]. rewrite IH. now rewrite andb_assoc.
Qed.

End QuerystringFacts.

Module Sha256Facts.
Import Sha256.

Lemma compress_length (h block : list N) :
  length h = 8%nat -> length (compress h block) = 8%nat.
Proof.
  intros H. unfold compress. rewrite length_map, length_combine, H. reflexivity.
Qed.

Lemma blocks_length (n : nat) :
  forall h l, length h = 8%nat -> length (blocks n h l) = 8%nat.
Proof.
  induction n as [|n IH]; intros h l H; cbn [blocks]; auto using compress_length.
Qed.

Lemma to_hex_not_empty (l : list N) : l <> [] -> Bytes.to_hex l <> EmptyString.
Proof. destruct l; [congruence | cbn [Bytes.to_hex]; congruence]. Qed.

Lemma sha256_not_empty (msg : list N) : sha256 msg <> [].
Proof.
  unfold sha256.
  pose proof (blocks_length (length (pad msg) / 64) H0 (pad msg) eq_refl) as E.
  destruct (blocks _ _ _) as [|x r]; [discriminate|].
  cbn [flat_map be_bytes]. intros C.
  apply app_eq_nil in C. destruct C as [C _].
  apply app_eq_nil in C. destruct C as [_ C]. discriminate.
Qed.

(** A hexadecimal digest is never the empty string. *)
Lemma hmac_not_empty (key data : string) : hmac_sha256_hex key data <> EmptyString.
Proof. apply to_hex_not_empty, sha256_not_empty. Qed.

End Sha256Facts.

Module CodecFacts.
Import QuerystringFacts.

Lemma unescape_value (s : string) :
  lacks "+"%char s = true -> lacks "%"%char s = true ->
  Querystring.unescape (Querystring.plus_to_space s) = s.
Proof.
  intros H1 H2. rewrite plus_to_space_plain by exact H1.
  now apply unescape_plain.
Qed.

(** The query string of the initiation parses to its two fields when the
    nonce and the return URL are free of [&], [+] and [%]. *)
Lemma parse_payload (nonce returnUrl : string) :
  lacks "&"%char nonce = true -> lacks "+"%char nonce = true ->
  lacks "%"%char nonce = true ->
  lacks "&"%char returnUrl = true -> lacks "+"%char returnUrl = true ->
  lacks "%"%char returnUrl = true ->
  Querystring.parse (payload_of nonce returnUrl)
  = [("nonce", JStr nonce); ("return_sso_url", JStr returnUrl)].
Proof.
  intros N1 N2 N3 U1 U2 U3. unfold Querystring.parse.
  replace (payload_of nonce returnUrl)
    with (("nonce=" ++ nonce) ++ String "&" ("return_sso_url=" ++ returnUrl))%string
    by reflexivity.
  rewrite split_app by (rewrite lacks_app, N1; reflexivity).
  rewrite split_plain by (rewrite lacks_app, U1; reflexivity).
  cbn [firstn fold_left]. unfold Querystring.add_pair.
  replace ("nonce=" ++ nonce)%string with ("nonce" ++ String "=" nonce)%string
    by reflexivity.
  replace ("return_sso_url=" ++ returnUrl)%string
    with ("return_sso_url" ++ String "=" returnUrl)%string by reflexivity.
  rewrite !cut_app by reflexivity.
  cbn [append String.eqb Ascii.eqb Bool.eqb].
  rewrite (unescape_value nonce N2 N3), (unescape_value returnUrl U2 U3).
  rewrite (unescape_value "nonce"), (unescape_value "return_sso_url") by reflexivity.
  reflexivity.
Qed.

End CodecFacts.

Module NonceFacts.

Lemma hex_digit_is_hex (n : N) : is_hex (Bytes.hex_digit n) = true.
Proof.
  unfold Bytes.hex_digit. generalize (N.to_nat n). intros k.
  do 16 (destruct k as [|k]; [reflexivity|]). cbn. now destruct k.
Qed.

(** The nonce of the initiation, the hexadecimal form of the random bytes,
    contains no character that the query string treats specially. *)
Lemma hex_nonce_is_plain (c : ascii) (buf : list N) :
  is_hex c = false -> lacks c (Bytes.to_hex buf) = true.
Proof.
  intros Hc.
  assert (D : forall n, Ascii.eqb (Bytes.hex_digit n) c = false).
  { intros n. destruct (Ascii.eqb (Bytes.hex_digit n) c) eqn:E; [|reflexivity].
    apply Ascii.eqb_eq in E. rewrite <- E, hex_digit_is_hex in Hc. discriminate. }
  induction buf as [|b r IH]; [reflexivity|].
  cbn [Bytes.to_hex lacks]. now rewrite !D, IH.
Qed.

End NonceFacts.

(** Test vectors of SHA-256 and HMAC-SHA256. *)

Example sha256_abc :
  Bytes.to_hex (Sha256.sha256 (Bytes.of_string "abc"))
  = "ba7816bf8f01cfea414140de5dae2223b00361a396177a9cb410ff61f20015ad".
Proof. vm_compute. reflexivity. Qed.

Example sha256_two_blocks :
  Bytes.to_hex (Sha256.sha256 (repeat 97%N 100))
  = "2816597888e4a0d3a36b82b83316ab32680eb8f00f8cd3b904d681246d285a0e".
Proof. vm_compute. reflexivity. Qed.

Example hmac_long_key :
  Bytes.to_hex (Sha256.hmac (repeat 107%N 100) (Bytes.of_string "hello"))
  = "3fd578d761a4f6703009e92d2e8a0aea22ab9ab50d4ad250dc95d8c369dec3f5".
Proof. vm_compute. reflexivity. Qed.

Example hmac_nonce_abc123 :
  hmac_sha256_hex "s3cret" "abc123"
  = "c769096b4d5745c128ffb221dc2e2d5cb38b4a1cae423cf413b12cbef730bc57".
Proof. vm_compute. reflexivity. Qed.

(** * The orchestrator *)


Ltac break_match :=
  match goal with
  | |- context [match ?x with _ => _ end] =>
      lazymatch x with
      | context [match _ with _ => _ end] => fail
      | _ => destruct x eqn:?
      end
  end.

Ltac run_handler :=
  cbv beta iota zeta delta
    [callback discourse oauth oauth_continuation email credentials issue handle
     name_of expiry
     property call hmac_hex decode_uri parse returns throws redirect finish
     bind ret emit throw exit try_catch trace rejected fst snd app].

Ltac observe :=
  cbn [status location cookie_writes hooks_called called outcome after logged
       reported sent existsb hook_eqb precedes is_call is_cookie is_redirect is_decoding
       is_later_step is_hmac_of get truthy thrown
       String.eqb Ascii.eqb Bool.eqb orb andb negb filter] in *.

Ltac tidy :=
  repeat match goal with
    | H : Some _ = Some _ |- _ => injection H as H
    | H : Ret _ = Ret _ |- _ => injection H as H
    | H : Thr _ = Thr _ |- _ => injection H as H
    | H : negb _ = false |- _ => apply negb_false_iff in H
    | H : negb _ = true |- _ => apply negb_true_iff in H
    end;
  subst; try discriminate; try congruence.

Ltac paths := repeat break_match; observe; tidy.

(** The name of an exception that the handler itself threw. *)
Ltac named :=
  repeat match goal with
  | H : exn_name ?x = Some _ |- _ =>
      lazymatch x with
      | TypeError _ => idtac
      | RangeError _ => idtac
      | URIError _ => idtac
      | Exn _ _ => idtac
      end;
      vm_compute in H; injection H as <-
  end;
  cbn [is_named String.eqb Ascii.eqb Bool.eqb] in *; tidy.

Lemma append_inj_l (a b c : string) : (a ++ b = a ++ c -> b = c)%string.
Proof. induction a; cbn [append]; intros H; [exact H | injection H; auto]. Qed.

Lemma append_assoc (a b c : string) : ((a ++ b) ++ c = a ++ (b ++ c))%string.
Proof. induction a; cbn [append]; [reflexivity | now rewrite IHa]. Qed.

Ltac members :=
  repeat match goal with
  | H : member ?k ?x = Some _, H' : member ?k ?x = Some _ |- _ =>
      rewrite H in H'; injection H' as H'; subst
  | H : member _ ?x = Some _, H' : member _ ?x = None |- _ =>
      exfalso; clear - H H'; destruct x; discriminate
  end.

(** What the hypotheses of a theorem say about the answer of the handler
    of the callback, once that answer is known. *)
Ltac answers :=
  repeat match goal with
  | H : forall a, Some (Ret ?v) = Some (Ret a) -> _ |- _ =>
      specialize (H v eq_refl)
  | H : exists _, _ |- _ => destruct H
  | H : _ /\ _ |- _ => destruct H
  | H : ?a = ?a -> _ |- _ => specialize (H eq_refl)
  end.

Lemma nonempty_some (x : option string) (y : string) :
  nonempty x = Some y -> x = Some y.
Proof.
  destruct x as [s|]; cbn; [|discriminate].
  destruct (s =? EmptyString); congruence.
Qed.

Ltac landing :=
  match goal with
  | |- _ \/ _ =>
      first
        [ left; unfold destination;
          repeat match goal with
                 | H : nonempty (optCallbackUrl _) = _ |- _ => rewrite H
                 end;
          reflexivity
        | right; symmetry; apply nonempty_some; assumption ]
  | _ => idtac
  end.

Ltac issued :=
  intros; paths;
  (split;
   [ intros; tidy; eauto
   | intros; tidy;
     (split;
      [ eauto
      | intros; observe; answers; members; tidy;
        try (do 2 eexists; repeat split; cbn [In]; eauto 10; landing) ]) ]).

Section Dispatch.
Context {L : NodeLib}.
Variables (w : world) (req : request) (o : config) (p : provider).
Hypothesis provider_found : find_provider (providerName o) (providers o) = Some p.

Lemma callback_discourse :
  type p = "discourse" ->
  callback w req o
  = discourse w req o p
      match cookies req with
      | Some c => of_option (lookup (name (sessionTokenCookie o)) c)
      | None => JNull
      end.
Proof. intros H. unfold callback. rewrite provider_found, H. reflexivity. Qed.

Lemma callback_oauth :
  type p = "oauth" ->
  callback w req o
  = oauth w o
      match cookies req with
      | Some c => of_option (lookup (name (sessionTokenCookie o)) c)
      | None => JNull
      end.
Proof. intros H. unfold callback. rewrite provider_found, H. reflexivity. Qed.

Lemma callback_email :
  type p = "email" ->
  callback w req o
  = email w req o p
      match cookies req with
      | Some c => of_option (lookup (name (sessionTokenCookie o)) c)
      | None => JNull
      end.
Proof. intros H. unfold callback. rewrite provider_found, H. reflexivity. Qed.

Lemma callback_credentials :
  type p = "credentials" -> method req = "POST" ->
  callback w req o = credentials w req o p.
Proof. intros H M. unfold callback. rewrite provider_found, H, M. reflexivity. Qed.

Lemma callback_unsupported :
  (type p = "credentials" /\ method req <> "POST")
  \/ (type p <> "discourse" /\ type p <> "oauth" /\ type p <> "email"
      /\ type p <> "credentials") ->
  callback w req o
  = ([Status 500;
      End (Some ("Error: Callback for provider type " ++ type p ++ " not supported"));
      Done], Exit).
Proof.
  intros H. unfold callback. rewrite provider_found.
  assert (E : (type p =? "discourse") = false /\ (type p =? "oauth") = false
              /\ (type p =? "email") = false
              /\ ((type p =? "credentials") && (method req =? "POST")) = false).
  { destruct H as [[H1 H2] | (H1 & H2 & H3 & H4)].
    - rewrite H1. repeat split; try reflexivity.
      apply andb_false_iff. right. now apply String.eqb_neq.
    - repeat split; try (now apply String.eqb_neq).
      apply andb_false_iff. left. now apply String.eqb_neq. }
  destruct E as (-> & -> & -> & ->). reflexivity.
Qed.

End Dispatch.

Arguments callback_discourse {L} w req {o p} _ _.
Arguments callback_oauth {L} w req {o p} _ _.
Arguments callback_email {L} w req {o p} _ _.
Arguments callback_credentials {L} w req {o p} _ _ _.
Arguments callback_unsupported {L} w req {o p} _ _.

Section Orchestrator.

Context {L : NodeLib}.
Variables (w : world) (req : request) (o : config) (p : provider).
Hypothesis provider_found : find_provider (providerName o) (providers o) = Some p.

(** C10.  A callback of a credentials provider that is not a POST, and a
    callback of a provider whose type is none of discourse, oauth, email
    and credentials, is answered with status 500 and the text
    [Error: Callback for provider type <type> not supported]: no [Location]
    header is written, no cookie is set, no hook is called, and the handler
    returns normally. *)
Theorem unsupported_callback_is_500 :
  (type p = "credentials" /\ method req <> "POST")
  \/ (type p <> "discourse" /\ type p <> "oauth" /\ type p <> "email"
      /\ type p <> "credentials") ->
  let r := callback w req o in
  status (trace r) = Some 500%Z
  /\ sent (trace r)
     = Some ("Error: Callback for provider type " ++ type p ++ " not supported")
  /\ location (trace r) = None
  /\ cookie_writes (trace r) = []
  /\ hooks_called (trace r) = []
  /\ rejected r = None.
Proof.
  intros H r. subst r. rewrite (callback_unsupported w req provider_found H). cbn. repeat split.
Qed.

(** C5.  In every callback of a credentials provider: when the provider's
    [authorize] throws (or its promise is rejected) the response is the
    redirect to the Configuration error page, which is not the page of
    invalid credentials; when [authorize] returns a falsy value the response
    is the 302 redirect to
    [{baseUrl}/error?error=CredentialsSignin&provider=<id>] (the id as
    [encodeURIComponent] gives it), neither [callbacks.jwt] nor [jwt.encode]
    is called and no cookie is written. *)
Theorem credentials_errors_told_apart :
  type p = "credentials" ->
  let t := trace (callback w req o) in
  let invalid :=
    (error_page o "CredentialsSignin" ++ "&provider="
       ++ lib_encodeURIComponent (id p))%string in
  (forall e, outcome HAuthorize t = Some (Thr e) ->
     status t = Some 302%Z
     /\ location t = Some (error_page o "Configuration")
     /\ location t <> Some invalid)
  /\ (forall v, outcome HAuthorize t = Some (Ret v) -> truthy v = false ->
     status t = Some 302%Z
     /\ location t = Some invalid
     /\ called HJwt t = false /\ called HJwtEncode t = false
     /\ cookie_writes t = []).
Proof.
  intros Ht.
  destruct (method req =? "POST") eqn:Hm.
  2:{ rewrite (callback_unsupported w req provider_found).
      - cbn. split; intros; discriminate.
      - left. split; [assumption | now apply String.eqb_neq]. }
  apply String.eqb_eq in Hm.
  rewrite (callback_credentials w req provider_found Ht Hm). run_handler.
  split; intros; paths; repeat split.
  all: intros C; injection C as C; unfold error_page in C;
    rewrite !append_assoc in C; apply append_inj_l in C; discriminate C.
Qed.

(** C9, amended.  In every callback in which the sign-in hook returns a
    value [v]: if [v] is the boolean [false], what follows the call is the
    redirect to the AccessDenied page and nothing else; for every other
    value ([undefined], [null], [0], the empty string, ...) what follows is
    the next step of the flow: the call of [callbackHandler], which finds
    or creates the user, and in the credentials branch, which has no such
    step, the call that builds the token.  When no later hook throws, the
    answer of [callbackHandler] carries a session (with its token, for
    database sessions) and the expiry is a date, the session cookie is
    written after the sign-in, with the token of [jwt.encode] or of the
    session, the event is dispatched, and the response is the 302 redirect
    to the callback URL, the site or the page for new users. *)
Theorem signin_denies_only_on_false :
  let r := callback w req o in
  let t := trace r in
  forall v, outcome HSignin t = Some (Ret v) ->
  (is_false v = true ->
     after HSignin t
     = [Status 302; SetHeader "Location" (error_page o "AccessDenied");
        End None; Done])
  /\ (is_false v = false ->
      (exists args r rest, after HSignin t = Call (next_step p) args r :: rest)
      /\ (thrown t = None ->
          (useJwtSession o = true ->
           valid_time (now w + sessionMaxAge o * 1000) = true) ->
          (forall answer, outcome HCallbackHandler t = Some (Ret answer) ->
             exists session,
               member "session" answer = Some session
               /\ (useJwtSession o = false ->
                   member "sessionToken" session <> None)) ->
          exists value opts,
            In (name (sessionTokenCookie o), value, opts)
               (cookie_writes (after HSignin t))
            /\ (if useJwtSession o
                then outcome HJwtEncode t = Some (Ret value)
                else exists answer session,
                       outcome HCallbackHandler t = Some (Ret answer)
                       /\ member "session" answer = Some session
                       /\ member "sessionToken" session = Some value)
            /\ called HDispatchEvent t = true
            /\ status t = Some 302%Z
            /\ (location t = Some (destination o) \/ location t = newUser o)
            /\ rejected r = None)).
Proof.
  intros r t v. subst t r. unfold next_step.
  destruct (type p =? "discourse") eqn:E1.
  { apply String.eqb_eq in E1. rewrite (callback_discourse w req provider_found E1), E1.
    cbn [String.eqb Ascii.eqb Bool.eqb]. run_handler.
    issued. }
  destruct (type p =? "oauth") eqn:E2.
  { apply String.eqb_eq in E2. rewrite (callback_oauth w req provider_found E2), E2.
    cbn [String.eqb Ascii.eqb Bool.eqb]. run_handler.
    issued. }
  destruct (type p =? "email") eqn:E3.
  { apply String.eqb_eq in E3. rewrite (callback_email w req provider_found E3), E3.
    cbn [String.eqb Ascii.eqb Bool.eqb]. run_handler.
    issued. }
  destruct (type p =? "credentials") eqn:E4.
  2:{ rewrite (callback_unsupported w req provider_found).
      - cbn. discriminate.
      - right. repeat split; now apply String.eqb_neq. }
  apply String.eqb_eq in E4.
  destruct (method req =? "POST") eqn:E5.
  2:{ rewrite (callback_unsupported w req provider_found).
      - cbn. discriminate.
      - left. split; [assumption | now apply String.eqb_neq]. }
  apply String.eqb_eq in E5. rewrite (callback_credentials w req provider_found E4 E5). run_handler.
  issued.
Qed.


(** The run of the discourse branch on a signature that does not match. *)
Lemma discourse_bad_signature (sso sig d : string) :
  type p = "discourse" ->
  nonempty (lookup "sso" (query req)) = Some sso ->
  nonempty (lookup "sig" (query req)) = Some sig ->
  lib_decodeURIComponent sso = Some d ->
  sig <> lib_hmac (secret p) d ->
  callback w req o
  = ([Lib FDecodeURIComponent (JStr sso) (Ret (JStr d));
      Lib FHmac (JStr d) (Ret (JStr (lib_hmac (secret p) d)));
      LogError "CALLBACK_OAUTH_ERROR" (JStr "Non-matching sig / sso keys");
      Status 302; SetHeader "Location" (error_page o "oAuthCallback");
      End None; Done], Exit).
Proof.
  intros Ht Hs Hg Hd Hn. rewrite (callback_discourse w req provider_found Ht). run_handler.
  rewrite Hs, Hg, Hd. apply String.eqb_neq in Hn. rewrite Hn. reflexivity.
Qed.

(** C7.  In the discourse branch the payload is decoded only after the
    signature is verified.  When the signature recomputed over the
    URL-decoded [sso] differs from [sig], the run contains no base64
    decoding, no UTF-8 conversion and no query-string parsing, calls no
    hook and ends in the 302 redirect to the error page.  Conversely, a
    run that contains any of the three decoding steps is one in which
    [sig] equals the recomputed signature, and the computation of that
    signature precedes every decoding step. *)
Theorem payload_decoded_only_after_verification :
  type p = "discourse" ->
  let r := callback w req o in
  (forall sso sig d,
     nonempty (lookup "sso" (query req)) = Some sso ->
     nonempty (lookup "sig" (query req)) = Some sig ->
     lib_decodeURIComponent sso = Some d ->
     sig <> lib_hmac (secret p) d ->
     filter is_decoding (trace r) = []
     /\ status (trace r) = Some 302%Z
     /\ location (trace r) = Some (error_page o "oAuthCallback")
     /\ hooks_called (trace r) = []
     /\ rejected r = None)
  /\ (filter is_decoding (trace r) <> [] ->
      exists sso sig d,
        nonempty (lookup "sso" (query req)) = Some sso
        /\ nonempty (lookup "sig" (query req)) = Some sig
        /\ lib_decodeURIComponent sso = Some d
        /\ sig = lib_hmac (secret p) d
        /\ precedes (is_hmac_of d) is_decoding (trace r) = true).
Proof.
  intros Ht r. subst r. split.
  - intros sso sig d Hs Hg Hd Hn.
    rewrite (discourse_bad_signature _ _ _ Ht Hs Hg Hd Hn). cbn. repeat split.
  - rewrite (callback_discourse w req provider_found Ht). run_handler.
    destruct (nonempty (lookup "sso" (query req))) as [sso|] eqn:Hs;
      [|cbn; congruence].
    destruct (nonempty (lookup "sig" (query req))) as [sig|] eqn:Hg;
      [|cbn; congruence].
    destruct (lib_decodeURIComponent sso) as [d|] eqn:Hd; [|cbn; congruence].
    destruct (sig =? lib_hmac (secret p) d) eqn:E; cbn [negb]; [|cbn; congruence].
    apply String.eqb_eq in E. intros _. exists sso, sig, d.
    repeat split; try assumption.
    paths; rewrite ?String.eqb_refl; reflexivity.
Qed.


(** The errors the orchestrator reports on the same page: a request
    without [sso] or [sig], and a failure of the OAuth transport. *)
Lemma generic_callback_errors :
  (type p = "discourse" ->
   nonempty (lookup "sso" (query req)) = None ->
   status (trace (callback w req o)) = Some 302%Z
   /\ location (trace (callback w req o)) = Some (error_page o "oAuthCallback"))
  /\ (type p = "oauth" ->
      forall e pr ac raw, oAuthCallback w = OAuthCalls e pr ac raw ->
      truthy e = true ->
      status (trace (callback w req o)) = Some 302%Z
      /\ location (trace (callback w req o)) = Some (error_page o "oAuthCallback")).
Proof.
  split.
  - intros Ht Hs. rewrite (callback_discourse w req provider_found Ht).
    run_handler. rewrite Hs. cbn. split; reflexivity.
  - intros Ht e pr ac raw Ho He.
    rewrite (callback_oauth w req provider_found Ht).
    run_handler. rewrite Ho, He. cbn. split; reflexivity.
Qed.

(** The nonce binding is consumed whenever the verified payload carries a
    nonce: the cookie is cleared whatever the comparison gives, and an
    absent, empty or different binding ends the callback. *)
Lemma nonce_binding_consumed (sso sig d n : string) (c : list (string * string)) :
  type p = "discourse" ->
  nonempty (lookup "sso" (query req)) = Some sso ->
  nonempty (lookup "sig" (query req)) = Some sig ->
  lib_decodeURIComponent sso = Some d ->
  sig = lib_hmac (secret p) d ->
  get "nonce" (lib_parse (lib_utf8 (lib_unbase64 sso))) = JStr n ->
  cookies req = Some c ->
  let t := trace (callback w req o) in
  let binding := lookup (name (nonceHashCookie o)) c in
  In (CookieSet (name (nonceHashCookie o)) (JStr EmptyString)
        (spread [("maxAge", JNum (-1))] (options (nonceHashCookie o)))) t
  /\ (nonempty binding <> Some (lib_hmac (secret p) n) ->
      logged "Non-matching nonce" t = true
      /\ status t = Some 302%Z
      /\ location t = Some (error_page o "oAuthCallback")
      /\ hooks_called t = []).
Proof.
  intros Ht Hs Hg Hd He Hn Hc. rewrite (callback_discourse w req provider_found Ht). run_handler.
  rewrite Hs, Hg, Hd, He, String.eqb_refl, Hn, Hc. cbn [negb].
  split.
  - paths; cbn; auto 10.
  - intros Hb. 
    assert (E : loose_neq (of_option (lookup (name (nonceHashCookie o)) c))
                  (lib_hmac (secret p) n)
                || negb (truthy (JStr (lib_hmac (secret p) n)))
                || negb (truthy (of_option (lookup (name (nonceHashCookie o)) c)))
                = true).
    { destruct (lookup (name (nonceHashCookie o)) c) as [b|]; [|reflexivity].
      cbn [of_option loose_neq truthy nonempty] in *.
      destruct (b =? EmptyString) eqn:Eb.
      - cbn. now rewrite orb_true_r.
      - destruct (b =? lib_hmac (secret p) n) eqn:E2; [|reflexivity].
        apply String.eqb_eq in E2. congruence. }
    rewrite E. cbn. repeat split.
Qed.

(** The oauth and email branches catch what their steps throw.  When
    that is a value whose [name] can be read (anything but [undefined] and
    [null]) the promise is not rejected and the response is a redirect. *)
Lemma oauth_and_email_contain_failures :
  type p = "oauth" \/ type p = "email" ->
  let r := callback w req o in
  (forall e, thrown (trace r) = Some e -> exn_name e <> None) ->
  rejected r = None
  /\ status (trace r) = Some 302%Z
  /\ location (trace r) <> None
  /\ In Done (trace r).
Proof.
  intros [Ht | Ht] r; subst r.
  - rewrite (callback_oauth w req provider_found Ht). run_handler.
    paths; intros N; try (exfalso; now apply (N _ eq_refl));
      repeat split; cbn [In]; auto 30; discriminate.
  - rewrite (callback_email w req provider_found Ht). run_handler.
    paths; intros N; try (exfalso; now apply (N _ eq_refl));
      repeat split; cbn [In]; auto 30; discriminate.
Qed.

(** In the oauth and email branches a new user is sent to the landing
    page, after the session cookie is written. *)
Lemma new_user_landing (answer isNewUser dispatched : jsval) (page : string) :
  type p = "oauth" \/ type p = "email" ->
  let t := trace (callback w req o) in
  outcome HCallbackHandler t = Some (Ret answer) ->
  member "isNewUser" answer = Some isNewUser ->
  outcome HDispatchEvent t = Some (Ret dispatched) ->
  truthy isNewUser = true ->
  nonempty (newUser o) = Some page ->
  status t = Some 302%Z
  /\ location t = Some page
  /\ cookie_writes t <> []
  /\ precedes (is_cookie (name (sessionTokenCookie o))) is_redirect t = true.
Proof.
  intros [Ht | Ht] t; subst t.
  - rewrite (callback_oauth w req provider_found Ht). run_handler.
    intros; paths; rewrite ?String.eqb_refl; repeat split; discriminate.
  - rewrite (callback_email w req provider_found Ht). run_handler.
    intros; paths; rewrite ?String.eqb_refl; repeat split; discriminate.
Qed.

End Orchestrator.

(** * The signed-payload codec *)

(** C1, amended.  For any secret, any nonce and any return URL that
    contain none of the characters [&], [+] and [%]: the initiation step
    builds [nonce=<nonce>&return_sso_url=<url>], encodes it in base64 and
    signs the base64 string; the callback of the discourse provider, given
    that payload and signature, recomputes the same signature, does not
    report a mismatch, and parses the payload into exactly the two fields
    it was built from. *)
Theorem sso_payload_round_trip
  (w : world) (req : request) (o : config) (p : provider)
  (nonce returnUrl : string) :
  find_provider (providerName o) (providers o) = Some p ->
  type p = "discourse" ->
  lacks "&"%char nonce = true -> lacks "+"%char nonce = true ->
  lacks "%"%char nonce = true ->
  lacks "&"%char returnUrl = true -> lacks "+"%char returnUrl = true ->
  lacks "%"%char returnUrl = true ->
  let payload := payload_of nonce returnUrl in
  let sso := fst (sign (L := node) (secret p) nonce returnUrl) in
  let sig := snd (sign (L := node) (secret p) nonce returnUrl) in
  lookup "sso" (query req) = Some sso ->
  lookup "sig" (query req) = Some sig ->
  let t := trace (callback (L := node) w req o) in
  sso = Base64.encode payload
  /\ sig = hmac_sha256_hex (secret p) sso
  /\ In (Lib FHmac (JStr sso) (Ret (JStr sig))) t
  /\ logged "Non-matching sig / sso keys" t = false
  /\ In (Lib FParse (JStr payload)
           (Ret (JObj [("nonce", JStr nonce); ("return_sso_url", JStr returnUrl)]))) t.
Proof.
  intros Hp Ht N1 N2 N3 U1 U2 U3 payload sso sig Hs Hg t.
  assert (Es : sso = Base64.encode payload) by reflexivity.
  assert (Eg : sig = hmac_sha256_hex (secret p) sso) by reflexivity.
  split; [exact Es|]. split; [exact Eg|].
  assert (Ne : (sso =? EmptyString) = false).
  { apply String.eqb_neq. rewrite Es. apply Base64Facts.encode_not_empty.
    unfold payload, payload_of. cbn [append]. discriminate. }
  assert (Ng : (sig =? EmptyString) = false).
  { apply String.eqb_neq. rewrite Eg. apply Sha256Facts.hmac_not_empty. }
  assert (Hd : Uri.decodeURIComponent sso = Some sso).
  { apply UriFacts.decodeURIComponent_plain. rewrite Es.
    apply (Base64Facts.encode_lacks_percent (String.length payload)). lia. }
  assert (Hb : Base64.decode sso = payload).
  { rewrite Es. apply Base64Facts.decode_encode. }
  assert (Hq : Querystring.parse payload
               = [("nonce", JStr nonce); ("return_sso_url", JStr returnUrl)]).
  { now apply CodecFacts.parse_payload. }
  subst t. rewrite (callback_discourse w req Hp Ht). run_handler.
  rewrite Hs, Hg. unfold nonempty. rewrite Ne, Ng.
  cbn [lib_decodeURIComponent lib_hmac lib_unbase64 lib_utf8 lib_parse node].
  rewrite Hd, <- Eg, String.eqb_refl, Hb, Hq.
  cbn [negb orb get truthy String.eqb Ascii.eqb Bool.eqb].
  clearbody sso sig payload.
  repeat break_match; cbn [fst]; observe; repeat split; cbn [In]; auto 10.
Qed.

(** * Concrete runs *)

Import Scenario.

(** The payloads of the scenarios are what they are said to be. *)
Example scenario_payloads :
  profile_sso
  = Base64.encode "nonce=abc123&external_id=42&email=a@b.com&username=ann"
  /\ profile_sig = hmac_sha256_hex "s3cret" profile_sso
  /\ no_nonce_sso = Base64.encode "external_id=42&email=a@b.com&username=ann"
  /\ no_nonce_sig = hmac_sha256_hex "s3cret" no_nonce_sso
  /\ binding_abc123 = hmac_sha256_hex "s3cret" "abc123".
Proof. vm_compute. repeat split. Qed.

(** The initiation for the random bytes [ab c1 23]: the nonce is [abc123],
    and the handler hands over its binding and the URL of the forum. *)
Example initiation_abc123 :
  getAuthorisationUrl (L := node) discourse_provider (inr [171; 193; 35]%N)
  = ([],
     Value
       (binding_abc123,
        "https://forum.example/session/sso_provider?sso=bm9uY2U9YWJjMTIzJnJldHVybl9zc29fdXJsPWh0dHBzOi8vYXBwL3g%3D&sig=5b0ff02fe3a9f0bb9ac8862d54e0d0102b9e924d6aa2654e45c50392cb5c74dd")).
Proof. vm_compute. reflexivity. Qed.

(** The happy path of the SSO provider: the profile of the payload reaches
    the sign-in hook and the response is the redirect to the callback
    URL. *)
Example sso_happy_path :
  let r := callback (L := node) app
             (sso_callback profile_sso profile_sig binding_abc123)
             (settings "discourse") in
  hd_error (filter (is_call HSignin) (trace r))
  = Some (Call HSignin
            [JObj [("email", JStr "a@b.com"); ("name", JStr "ann");
                   ("image", JStr EmptyString); ("username", JStr "ann");
                   ("id", JStr "42"); ("admin", JBool false);
                   ("moderator", JBool false)];
             JObj [("id", JStr "42"); ("type", JStr "discourse");
                   ("provider", JStr "discourse")];
             JNull]
            (Ret (JBool true)))
  /\ status (trace r) = Some 302%Z
  /\ location (trace r) = Some "https://app/home"
  /\ rejected r = None.
Proof. vm_compute. repeat split. Qed.

(** C2, at a failing input.  The payload
    [external_id=42&email=a@b.com&username=ann] is signed with the
    provider's secret and carries no nonce.  The callback verifies the
    signature and decodes the payload; [hmac.update(ret.nonce)] then throws
    on the undefined nonce, before the cookie of the nonce binding is
    cleared and before the nonce check: no cookie is written, no redirect
    is sent, and the handler's promise is rejected.  The claim has the
    cookie cleared in every callback whose signature verifies, and an
    absent nonce hash answered with the nonce-mismatch redirect. *)
Theorem nonce_binding_survives_missing_nonce :
  let r := callback (L := node) app
             (sso_callback no_nonce_sso no_nonce_sig binding_abc123)
             (settings "discourse") in
  no_nonce_sig = hmac_sha256_hex "s3cret" no_nonce_sso
  /\ In (Lib FHmac (JStr no_nonce_sso) (Ret (JStr no_nonce_sig))) (trace r)
  /\ logged "Non-matching sig / sso keys" (trace r) = false
  /\ In (Lib FHmac JUndefined
           (Thr (TypeError "The data argument must be of type string"))) (trace r)
  /\ rejected r = Some (TypeError "The data argument must be of type string")
  /\ cookie_writes (trace r) = []
  /\ status (trace r) = None
  /\ location (trace r) = None.
Proof. vm_compute. repeat split; auto 10. Qed.

(** C3, at failing inputs.  In the discourse branch (a valid signed payload
    and nonce binding) and in the credentials branch (a POST, token
    sessions, [authorize] returning a user), an exception of the sign-in
    hook, of the callback handler, of [jwt.encode] or of the event dispatch
    is not caught: the handler's promise is rejected with it, no status or
    [Location] is written and [done] is not called.  The claim has every
    such failure turned into a 302 redirect to an error page. *)
Theorem hook_failures_escape_the_orchestrator :
  let sso := sso_callback profile_sso profile_sig binding_abc123 in
  let r1 := callback (L := node) (answering HSignin (Thr boom) app)
              sso (settings "discourse") in
  let r2 := callback (L := node) (answering HJwtEncode (Thr boom) app)
              sso (settings "discourse") in
  let r3 := callback (L := node) (answering HSignin (Thr boom) app)
              credentials_post (settings "credentials") in
  let r4 := callback (L := node) (answering HDispatchEvent (Thr boom) app)
              credentials_post (settings "credentials") in
  let r5 := callback (L := node) (answering HCallbackHandler (Thr boom) app)
              sso (settings "discourse") in
  (rejected r1 = Some boom /\ status (trace r1) = None /\ ~ In Done (trace r1))
  /\ (rejected r2 = Some boom /\ status (trace r2) = None /\ ~ In Done (trace r2))
  /\ (rejected r3 = Some boom /\ status (trace r3) = None /\ ~ In Done (trace r3))
  /\ (rejected r4 = Some boom /\ status (trace r4) = None /\ ~ In Done (trace r4))
  /\ (rejected r5 = Some boom /\ status (trace r5) = None /\ ~ In Done (trace r5)).
Proof.
  vm_compute. repeat split; intros H;
    repeat (destruct H as [H | H]; [discriminate H|]); exact H.
Qed.

(** C8, at a failing input.  A callback of the discourse provider succeeds
    for a first-time user ([isNewUser] is [true]) while a page for new
    users is configured: the session cookie is written and the response is
    the 302 redirect to the callback URL, not to the page for new users.
    The claim has the new user sent to that page for every provider
    kind. *)
Theorem discourse_skips_new_user_page :
  let o := settings "discourse" in
  let r := callback (L := node) app
             (sso_callback profile_sso profile_sig binding_abc123) o in
  newUser o = Some "https://app/welcome"
  /\ (exists answer,
        outcome HCallbackHandler (trace r) = Some (Ret answer)
        /\ member "isNewUser" answer = Some (JBool true))
  /\ rejected r = None
  /\ cookie_writes (trace r)
     = [("next-auth.nonce-hash", JStr EmptyString,
         [("maxAge", JNum (-1)); ("path", JStr "/")]);
        ("next-auth.session-token", JStr "signed.jwt",
         [("expires", JStr "1602592000000"); ("path", JStr "/")])]
  /\ status (trace r) = Some 302%Z
  /\ location (trace r) = Some "https://app/home".
Proof.
  vm_compute. repeat split. eexists. split; reflexivity.
Qed.

(** * Instances of the theorems *)

Lemma unsupported_callback_is_500_witness :
  (let r := callback (L := node) app credentials_get (settings "credentials") in
   status (trace r) = Some 500%Z
   /\ sent (trace r) = Some "Error: Callback for provider type credentials not supported"
   /\ location (trace r) = None
   /\ cookie_writes (trace r) = []
   /\ hooks_called (trace r) = []
   /\ rejected r = None)
  /\ (let r := callback (L := node) app oauth_return (settings "saml") in
      status (trace r) = Some 500%Z
      /\ sent (trace r) = Some "Error: Callback for provider type saml not supported"
      /\ location (trace r) = None
      /\ cookie_writes (trace r) = []
      /\ hooks_called (trace r) = []
      /\ rejected r = None).
Proof.
  split.
  - apply (unsupported_callback_is_500 (L := node) app credentials_get
             (settings "credentials") credentials_provider eq_refl).
    left. split; [reflexivity | discriminate].
  - apply (unsupported_callback_is_500 (L := node) app oauth_return
             (settings "saml") saml_provider eq_refl).
    right. repeat split; discriminate.
Defined.

Lemma credentials_errors_told_apart_witness :
  (let t := trace (callback (L := node) (answering HAuthorize (Thr boom) app)
                     credentials_post (settings "credentials")) in
   status t = Some 302%Z
   /\ location t = Some "https://app/api/auth/error?error=Configuration"
   /\ location t
      <> Some "https://app/api/auth/error?error=CredentialsSignin&provider=credentials")
  /\ (let t := trace (callback (L := node) (answering HAuthorize (Ret JNull) app)
                        credentials_post (settings "credentials")) in
      status t = Some 302%Z
      /\ location t
         = Some "https://app/api/auth/error?error=CredentialsSignin&provider=credentials"
      /\ called HJwt t = false /\ called HJwtEncode t = false
      /\ cookie_writes t = []).
Proof.
  split.
  - apply (proj1 (credentials_errors_told_apart (L := node)
                    (answering HAuthorize (Thr boom) app) credentials_post
                    (settings "credentials") credentials_provider
                    eq_refl eq_refl) boom).
    reflexivity.
  - apply (proj2 (credentials_errors_told_apart (L := node)
                    (answering HAuthorize (Ret JNull) app) credentials_post
                    (settings "credentials") credentials_provider
                    eq_refl eq_refl) JNull).
    + reflexivity.
    + reflexivity.
Defined.


Lemma signin_denies_only_on_false_witness :
  (let t := trace (callback (L := node) (answering HSignin (Ret (JBool false)) app)
                     (sso_callback profile_sso profile_sig binding_abc123)
                     (settings "discourse")) in
   after HSignin t
   = [Status 302;
      SetHeader "Location" "https://app/api/auth/error?error=AccessDenied";
      End None; Done])
  /\ (forall v, In v [JUndefined; JNull; JNum 0; JStr EmptyString] ->
      (let r := callback (L := node) (answering HSignin (Ret v) app)
                  (sso_callback profile_sso profile_sig binding_abc123)
                  (settings "discourse") in
       let t := trace r in
       (exists args r rest,
          after HSignin t = Call HCallbackHandler args r :: rest)
       /\ (exists value opts,
             In ("next-auth.session-token", value, opts)
                (cookie_writes (after HSignin t))
             /\ outcome HJwtEncode t = Some (Ret value)
             /\ called HDispatchEvent t = true
             /\ status t = Some 302%Z
             /\ (location t = Some "https://app/home"
                 \/ location t = Some "https://app/welcome")
             /\ rejected r = None))
      /\ (let r := callback (L := node) (answering HSignin (Ret v) app)
                     credentials_post (settings "credentials") in
          let t := trace r in
          (exists args r rest, after HSignin t = Call HJwt args r :: rest)
          /\ (exists value opts,
                In ("next-auth.session-token", value, opts)
                   (cookie_writes (after HSignin t))
                /\ outcome HJwtEncode t = Some (Ret value)
                /\ called HDispatchEvent t = true
                /\ status t = Some 302%Z
                /\ (location t = Some "https://app/home"
                    \/ location t = Some "https://app/welcome")
                /\ rejected r = None))).
Proof.
  split.
  - refine (proj1 (signin_denies_only_on_false (L := node)
                     (answering HSignin (Ret (JBool false)) app)
                     (sso_callback profile_sso profile_sig binding_abc123)
                     (settings "discourse") discourse_provider eq_refl
                     (JBool false) _) _).
    + vm_compute. reflexivity.
    + reflexivity.
  - intros v Hv. cbn [In] in Hv.
    decompose [or] Hv; try contradiction; subst v.
    all: match goal with
         | |- context [answering HSignin (Ret ?v) app] =>
             split;
             [ assert (S : outcome HSignin
                             (trace (callback (L := node)
                                       (answering HSignin (Ret v) app)
                                       (sso_callback profile_sso profile_sig
                                          binding_abc123)
                                       (settings "discourse")))
                           = Some (Ret v)) by (vm_compute; reflexivity);
               assert (O : outcome HCallbackHandler
                             (trace (callback (L := node)
                                       (answering HSignin (Ret v) app)
                                       (sso_callback profile_sso profile_sig
                                          binding_abc123)
                                       (settings "discourse")))
                           = Some (run app HCallbackHandler []))
                 by (vm_compute; reflexivity);
               destruct (proj2 (signin_denies_only_on_false (L := node)
                                  (answering HSignin (Ret v) app)
                                  (sso_callback profile_sso profile_sig binding_abc123)
                                  (settings "discourse") discourse_provider eq_refl
                                  v S) eq_refl)
                 as [Next Issue]
             | assert (S : outcome HSignin
                             (trace (callback (L := node)
                                       (answering HSignin (Ret v) app)
                                       credentials_post (settings "credentials")))
                           = Some (Ret v)) by (vm_compute; reflexivity);
               assert (O : outcome HCallbackHandler
                             (trace (callback (L := node)
                                       (answering HSignin (Ret v) app)
                                       credentials_post (settings "credentials")))
                           = None)
                 by (vm_compute; reflexivity);
               destruct (proj2 (signin_denies_only_on_false (L := node)
                                  (answering HSignin (Ret v) app)
                                  credentials_post
                                  (settings "credentials") credentials_provider eq_refl
                                  v S) eq_refl)
                 as [Next Issue] ];
             (split; [exact Next|]);
             (refine (Issue _ _ _);
              [ vm_compute; reflexivity
              | intros _; vm_compute; reflexivity
              | intros answer A; rewrite O in A;
                first
                  [ discriminate A
                  | cbv in A; injection A as <-; eexists;
                    (split; [reflexivity | intros; discriminate]) ] ])
         end.
Defined.

Lemma payload_decoded_only_after_verification_witness :
  (let r := callback (L := node) app
              (sso_callback profile_sso corrupted_sig binding_abc123)
              (settings "discourse") in
   filter is_decoding (trace r) = []
   /\ status (trace r) = Some 302%Z
   /\ location (trace r) = Some "https://app/api/auth/error?error=oAuthCallback"
   /\ hooks_called (trace r) = []
   /\ rejected r = None)
  /\ (let r := callback (L := node) app
                 (sso_callback profile_sso profile_sig binding_abc123)
                 (settings "discourse") in
      exists sso sig d,
        nonempty (lookup "sso" (query (sso_callback profile_sso profile_sig binding_abc123)))
        = Some sso
        /\ nonempty (lookup "sig" (query (sso_callback profile_sso profile_sig binding_abc123)))
           = Some sig
        /\ Uri.decodeURIComponent sso = Some d
        /\ sig = hmac_sha256_hex "s3cret" d
        /\ precedes (is_hmac_of d) is_decoding (trace r) = true).
Proof.
  split.
  - apply (proj1 (payload_decoded_only_after_verification (L := node) app
                    (sso_callback profile_sso corrupted_sig binding_abc123)
                    (settings "discourse") discourse_provider eq_refl eq_refl)
             profile_sso corrupted_sig profile_sso).
    + reflexivity.
    + reflexivity.
    + vm_compute. reflexivity.
    + vm_compute. discriminate.
  - apply (proj2 (payload_decoded_only_after_verification (L := node) app
                    (sso_callback profile_sso profile_sig binding_abc123)
                    (settings "discourse") discourse_provider eq_refl eq_refl)).
    vm_compute. discriminate.
Defined.


Lemma sso_payload_round_trip_witness :
  sign (L := node) "s3cret" "abc123" "https://app/x"
  = ("bm9uY2U9YWJjMTIzJnJldHVybl9zc29fdXJsPWh0dHBzOi8vYXBwL3g=",
     "5b0ff02fe3a9f0bb9ac8862d54e0d0102b9e924d6aa2654e45c50392cb5c74dd")
  /\ (let payload := payload_of "abc123" "https://app/x" in
      let sso := fst (sign (L := node) "s3cret" "abc123" "https://app/x") in
      let sig := snd (sign (L := node) "s3cret" "abc123" "https://app/x") in
      let t := trace (callback (L := node) app
                        (sso_callback
                           "bm9uY2U9YWJjMTIzJnJldHVybl9zc29fdXJsPWh0dHBzOi8vYXBwL3g="
                           "5b0ff02fe3a9f0bb9ac8862d54e0d0102b9e924d6aa2654e45c50392cb5c74dd"
                           binding_abc123)
                        (settings "discourse")) in
      sso = Base64.encode payload
      /\ sig = hmac_sha256_hex "s3cret" sso
      /\ In (Lib FHmac (JStr sso) (Ret (JStr sig))) t
      /\ logged "Non-matching sig / sso keys" t = false
      /\ In (Lib FParse (JStr payload)
               (Ret (JObj [("nonce", JStr "abc123");
                           ("return_sso_url", JStr "https://app/x")]))) t).
Proof.
  split.
  - vm_compute. reflexivity.
  - apply (sso_payload_round_trip app
             (sso_callback
                "bm9uY2U9YWJjMTIzJnJldHVybl9zc29fdXJsPWh0dHBzOi8vYXBwL3g="
                "5b0ff02fe3a9f0bb9ac8862d54e0d0102b9e924d6aa2654e45c50392cb5c74dd"
                binding_abc123)
             (settings "discourse") discourse_provider "abc123" "https://app/x"
             eq_refl eq_refl eq_refl eq_refl eq_refl eq_refl eq_refl eq_refl).
    + vm_compute. reflexivity.
    + vm_compute. reflexivity.
Defined.

(** C1, a counterexample to the claim as stated.  With the return URL
    [https://app/x?a=1&b=2] the callback accepts the signature of the
    initiation but parses the payload into three fields: the return URL
    comes back cut at its [&], and the two original fields are not what it
    decodes. *)
Lemma sso_payload_round_trip_fails_on_ampersand :
  let returnUrl := "https://app/x?a=1&b=2" in
  let payload := payload_of "abc123" returnUrl in
  let sso := fst (sign (L := node) "s3cret" "abc123" returnUrl) in
  let sig := snd (sign (L := node) "s3cret" "abc123" returnUrl) in
  let t := trace (callback (L := node) app (sso_callback sso sig binding_abc123)
                    (settings "discourse")) in
  In (Lib FHmac (JStr sso) (Ret (JStr sig))) t
  /\ logged "Non-matching sig / sso keys" t = false
  /\ In (Lib FParse (JStr payload)
           (Ret (JObj [("nonce", JStr "abc123");
                       ("return_sso_url", JStr "https://app/x?a=1");
                       ("b", JStr "2")]))) t
  /\ ~ In (Lib FParse (JStr payload)
             (Ret (JObj [("nonce", JStr "abc123");
                         ("return_sso_url", JStr returnUrl)]))) t.
Proof.
  vm_compute. repeat split; auto 10.
  intros H. repeat (destruct H as [H | H]; [discriminate H|]). exact H.
Qed.


(** C9, a counterexample to the claim as stated.  A POST callback of the
    credentials provider in which the sign-in hook returns [undefined]:
    the value is treated as an allow and the session cookie is written,
    but no user is created: [callbackHandler], the one step that finds or
    creates a user, is not called in this branch. *)
Lemma signin_allow_creates_no_user_for_credentials :
  let r := callback (L := node) (answering HSignin (Ret JUndefined) app)
             credentials_post (settings "credentials") in
  outcome HSignin (trace r) = Some (Ret JUndefined)
  /\ hooks_called (trace r)
     = [HAuthorize; HSignin; HJwt; HJwtEncode; HDispatchEvent]
  /\ called HCallbackHandler (trace r) = false
  /\ cookie_writes (trace r)
     = [("next-auth.session-token", JStr "signed.jwt",
         [("expires", JStr "1602592000000"); ("path", JStr "/")])]
  /\ status (trace r) = Some 302%Z
  /\ location (trace r) = Some "https://app/home"
  /\ rejected r = None.
Proof. vm_compute. repeat split. Qed.

(** * Further properties of the handlers *)

Ltac observe2 :=
  cbn [count is_status is_location is_end is_done distinct arguments thrown
       length last allowed begins
       status location cookie_writes hooks_called called outcome after logged
       reported sent existsb hook_eqb precedes is_call is_cookie is_redirect
       is_decoding is_later_step is_hmac_of get truthy
       String.eqb Ascii.eqb Bool.eqb orb andb negb filter] in *.

Ltac paths2 := repeat break_match; observe2; tidy.

Ltac each_branch w req o p Hp tac :=
  destruct (type p =? "discourse") eqn:?E1;
  [ apply String.eqb_eq in E1; rewrite (callback_discourse w req Hp E1);
    run_handler; tac
  | destruct (type p =? "oauth") eqn:?E2;
    [ apply String.eqb_eq in E2; rewrite (callback_oauth w req Hp E2);
      run_handler; tac
    | destruct (type p =? "email") eqn:?E3;
      [ apply String.eqb_eq in E3; rewrite (callback_email w req Hp E3);
        run_handler; tac
      | destruct ((type p =? "credentials") && (method req =? "POST")) eqn:?E4;
        [ apply andb_prop in E4; destruct E4 as [E4 E5];
          apply String.eqb_eq in E4; apply String.eqb_eq in E5;
          rewrite (callback_credentials w req Hp E4 E5); run_handler; tac
        | rewrite (callback_unsupported w req Hp);
          [ cbn [trace rejected fst snd]; tac
          | apply String.eqb_neq in E1; apply String.eqb_neq in E2;
            apply String.eqb_neq in E3;
            apply andb_false_iff in E4;
            destruct E4 as [E4 | E4]; apply String.eqb_neq in E4;
            [ right; auto
            | destruct (String.eqb_spec (type p) "credentials"); [left | right]; auto ] ] ] ] ] ].

Module ObjectFacts.

Lemma get_set (k k' : string) (v : jsval) (o : obj) :
  get k (set k' v o) = if k =? k' then v else get k o.
Proof.
  induction o as [|[a x] r IH]; cbn [set get].
  - reflexivity.
  - destruct (k' =? a) eqn:E; cbn [get].
    + apply String.eqb_eq in E. subst a. destruct (k =? k'); reflexivity.
    + rewrite IH. destruct (k =? a) eqn:F; [|reflexivity].
      apply String.eqb_eq in F. subst a.
      rewrite String.eqb_sym in E. now rewrite E.
Qed.

Lemma has_false (k : string) (o : obj) :
  ~ In k (map fst o) -> has k o = false.
Proof.
  induction o as [|[a x] r IH]; cbn [has map fst In]; [reflexivity|].
  intros N. rewrite IH by tauto.
  destruct (String.eqb_spec k a); [subst; tauto | reflexivity].
Qed.

(** [{ ...base, ...o }]: a property of [o] wins over the same property of
    [base]. *)
Lemma get_spread (k : string) (o : obj) :
  NoDup (map fst o) ->
  forall base, get k (spread base o) = if has k o then get k o else get k base.
Proof.
  unfold spread. induction o as [|[a x] r IH]; intros N base; cbn [fold_left has get].
  - reflexivity.
  - cbn [map fst] in N. inversion N as [|? ? Na Nr]; subst.
    rewrite (IH Nr). cbn [fst snd]. rewrite get_set.
    destruct (String.eqb_spec k a); cbn [orb]; [|reflexivity].
    subst a. now rewrite has_false.
Qed.

End ObjectFacts.

Lemma callback_without_provider {L : NodeLib} (w : world) (req : request) (o : config) :
  find_provider (providerName o) (providers o) = None ->
  callback w req o
  = if inherited (providerName o)
    then ([Status 500;
           End (Some "Error: Callback for provider type undefined not supported");
           Done], Exit)
    else ([], Raise (TypeError "Cannot destructure property 'type' of undefined")).
Proof.
  intros H. unfold callback. rewrite H. destruct (inherited (providerName o)); reflexivity.
Qed.

Section Coverage.
Context {L : NodeLib}.
Variables (w : world) (req : request) (o : config).

(** X1.  In every run of the callback handler no hook of the application is
    called twice, and the hooks that are called are an initial part of the
    fixed sequence of the provider's branch: sign-in, user resolution, then
    the token hooks (with token sessions) and the event; the email branch
    first asks the adapter, looks the verification request up, deletes it
    and looks the user up; the credentials branch asks [authorize] first
    and has no user resolution.  Without a provider no hook is called. *)
Theorem hooks_run_in_order :
  let t := trace (callback w req o) in
  distinct (hooks_called t) = true
  /\ match find_provider (providerName o) (providers o) with
     | Some p => begins (hooks_called t) (hook_sequence o p) = true
     | None => hooks_called t = []
     end.
Proof.
  destruct (find_provider (providerName o) (providers o)) as [p|] eqn:Hp.
  2:{ rewrite (callback_without_provider w req o Hp).
      destruct (inherited (providerName o)); split; reflexivity. }
  unfold hook_sequence, session_hooks.
  each_branch w req o p Hp
    ltac:(repeat match goal with
                 | H : type p = _ |- _ => rewrite H
                 end;
          paths2; split; reflexivity).
Qed.

(** X2.  Unless the sign-in hook returned something other than [false], a run of
    the callback handler resolves no user, builds no token, dispatches no
    event and writes no session cookie: the only cookie it can write is the
    one that clears the nonce binding. *)
Theorem no_session_without_signin :
  let t := trace (callback w req o) in
  allowed t = false ->
  (cookie_writes t = [] \/ cookie_writes t = [nonce_clearing o])
  /\ called HCallbackHandler t = false
  /\ called HJwt t = false /\ called HJwtEncode t = false
  /\ called HDispatchEvent t = false.
Proof.
  destruct (find_provider (providerName o) (providers o)) as [p|] eqn:Hp.
  2:{ rewrite (callback_without_provider w req o Hp).
      destruct (inherited (providerName o)); cbn; auto 10. }
  unfold nonce_clearing.
  each_branch w req o p Hp ltac:(paths2; intros; tidy; auto 10).
Qed.

(** X3.  Whenever [callbackHandler] is called, it is given the session token of
    the request (or [null] without cookies) and the very profile and
    account that the sign-in hook was asked about and did not refuse. *)
Theorem user_resolved_for_approved_profile (args : list jsval) :
  let t := trace (callback w req o) in
  arguments HCallbackHandler t = Some args ->
  exists profile account raw,
    args = [current_session req o; profile; account]
    /\ arguments HSignin t = Some [profile; account; raw]
    /\ allowed t = true.
Proof.
  destruct (find_provider (providerName o) (providers o)) as [p|] eqn:Hp.
  2:{ rewrite (callback_without_provider w req o Hp).
      destruct (inherited (providerName o)); cbn; discriminate. }
  unfold current_session.
  each_branch w req o p Hp
    ltac:(paths2; intros; tidy; do 3 eexists; repeat split;
          match goal with
          | H : is_false _ = false |- _ => rewrite H; reflexivity
          end).
Qed.

(** X4.  [jwt.encode] is called only with token sessions, on the payload
    that [callbacks.jwt] returned, with the configured secret and
    lifetime.  When it returns a token and the expiry, the time of the call
    plus the lifetime, is a time a [Date] can hold, the token is written to
    the session cookie with that expiry; when the expiry is out of range,
    [toISOString] throws: no session cookie is written and no event is
    dispatched. *)
Theorem token_session_cookie :
  let t := trace (callback w req o) in
  let time := (now w + sessionMaxAge o * 1000)%Z in
  (forall args, arguments HJwtEncode t = Some args ->
     useJwtSession o = true
     /\ exists payload,
          outcome HJwt t = Some (Ret payload)
          /\ args = [JObj [("secret", jwtSecret o); ("token", payload);
                           ("maxAge", JNum (sessionMaxAge o))]])
  /\ (forall token, outcome HJwtEncode t = Some (Ret token) ->
      if valid_time time
      then In (name (sessionTokenCookie o), token,
               spread [("expires", JStr (lib_iso time))]
                      (options (sessionTokenCookie o)))
              (cookie_writes t)
      else (cookie_writes t = [] \/ cookie_writes t = [nonce_clearing o])
           /\ called HDispatchEvent t = false).
Proof.
  destruct (find_provider (providerName o) (providers o)) as [p|] eqn:Hp.
  2:{ rewrite (callback_without_provider w req o Hp).
      destruct (inherited (providerName o)); cbn; split; intros; discriminate. }
  unfold nonce_clearing.
  each_branch w req o p Hp
    ltac:(paths2; split; intros; tidy;
          repeat split; eauto; cbn [In]; auto).
Qed.

(** X5.  With database sessions no token hook and no [authorize] is called; the
    session cookie carries the session token that [callbackHandler]
    returned, with the expiry of that session (or [null]); and when the
    answer of [callbackHandler] has no session object, the handler stops
    before the event and writes no session cookie. *)
Theorem database_session_cookie :
  let t := trace (callback w req o) in
  useJwtSession o = false ->
  called HJwt t = false /\ called HJwtEncode t = false
  /\ called HAuthorize t = false
  /\ (forall answer session token expires,
      outcome HCallbackHandler t = Some (Ret answer) ->
      member "session" answer = Some session ->
      member "sessionToken" session = Some token ->
      member "expires" session = Some expires ->
      In (name (sessionTokenCookie o), token,
          spread [("expires", js_or expires JNull)]
                 (options (sessionTokenCookie o)))
         (cookie_writes t))
  /\ (forall answer session,
      outcome HCallbackHandler t = Some (Ret answer) ->
      member "session" answer = Some session ->
      member "sessionToken" session = None ->
      called HDispatchEvent t = false
      /\ (cookie_writes t = [] \/ cookie_writes t = [nonce_clearing o])).
Proof.
  intros t U. subst t.
  destruct (find_provider (providerName o) (providers o)) as [p|] eqn:Hp.
  2:{ rewrite (callback_without_provider w req o Hp).
      destruct (inherited (providerName o)); cbn; repeat split; intros; discriminate. }
  unfold nonce_clearing.
  each_branch w req o p Hp
    ltac:(rewrite ?U; paths2; repeat split; intros; tidy;
          members; cbn [In]; auto; try solve [intuition congruence]).
Qed.

(** X6.  A run of the callback handler that ends normally has written the status
    once, at most one [Location], ended the response once and called
    [done] once, as its last step; a run that ends in an exception has
    written nothing to the response and has not called [done]. *)
Theorem response_written_once :
  let r := callback w req o in
  match rejected r with
  | None =>
      count is_status (trace r) = 1 /\ count is_end (trace r) = 1
      /\ count is_done (trace r) = 1 /\ last (trace r) Done = Done
      /\ count is_location (trace r) <= 1
  | Some _ =>
      count is_status (trace r) = 0 /\ count is_end (trace r) = 0
      /\ count is_done (trace r) = 0 /\ count is_location (trace r) = 0
  end.
Proof.
  destruct (find_provider (providerName o) (providers o)) as [p|] eqn:Hp.
  2:{ rewrite (callback_without_provider w req o Hp).
      destruct (inherited (providerName o)); cbn; auto 10. }
  each_branch w req o p Hp ltac:(paths2; repeat split; auto).
Qed.
(** X7.  Every cookie that a run of the handler writes is the clearing of
    the nonce cookie or the session cookie, and it carries the options
    configured for that cookie, which are spread after the handler's own
    and so win over them: a configured [maxAge] replaces the [-1] that
    clears the nonce cookie, and the computed expiry of a token session is
    used only when no [expires] is configured.  (An object has each
    property once.) *)
Theorem configured_cookie_options_win (n : string) (v : jsval) (opts : obj) :
  NoDup (map fst (options (nonceHashCookie o))) ->
  NoDup (map fst (options (sessionTokenCookie o))) ->
  In (n, v, opts) (cookie_writes (trace (callback w req o))) ->
  (n = name (nonceHashCookie o) /\ v = JStr EmptyString
   /\ get "maxAge" opts
      = (if has "maxAge" (options (nonceHashCookie o))
         then get "maxAge" (options (nonceHashCookie o)) else JNum (-1))
   /\ (forall k, has k (options (nonceHashCookie o)) = true ->
       get k opts = get k (options (nonceHashCookie o))))
  \/ (n = name (sessionTokenCookie o)
      /\ (forall k, has k (options (sessionTokenCookie o)) = true ->
          get k opts = get k (options (sessionTokenCookie o)))
      /\ (has "expires" (options (sessionTokenCookie o)) = false ->
          useJwtSession o = true ->
          get "expires" opts
          = JStr (lib_iso (now w + sessionMaxAge o * 1000)))).
Proof.
  intros N1 N2.
  assert (S1 : forall base,
             get "maxAge" (spread base (options (nonceHashCookie o)))
             = (if has "maxAge" (options (nonceHashCookie o))
                then get "maxAge" (options (nonceHashCookie o))
                else get "maxAge" base)
             /\ (forall k, has k (options (nonceHashCookie o)) = true ->
                 get k (spread base (options (nonceHashCookie o)))
                 = get k (options (nonceHashCookie o)))).
  { intros base. split; [apply ObjectFacts.get_spread, N1|].
    intros k H. rewrite ObjectFacts.get_spread by exact N1. now rewrite H. }
  assert (S2 : forall base,
             (forall k, has k (options (sessionTokenCookie o)) = true ->
                 get k (spread base (options (sessionTokenCookie o)))
                 = get k (options (sessionTokenCookie o)))
             /\ (has "expires" (options (sessionTokenCookie o)) = false ->
                 get "expires" (spread base (options (sessionTokenCookie o)))
                 = get "expires" base)).
  { intros base. split.
    - intros k H. rewrite ObjectFacts.get_spread by exact N2. now rewrite H.
    - intros H. rewrite ObjectFacts.get_spread by exact N2. now rewrite H. }
  destruct (find_provider (providerName o) (providers o)) as [p|] eqn:Hp.
  2:{ rewrite (callback_without_provider w req o Hp).
      destruct (inherited (providerName o)); cbn; contradiction. }
  each_branch w req o p Hp
    ltac:(paths2; cbn [In]; intros H;
          repeat match goal with
                 | H : _ \/ _ |- _ => destruct H as [H | H]
                 | H : False |- _ => destruct H
                 | H : (_, _, _) = (_, _, _) |- _ => injection H as <- <- <-
                 end;
          [> first
               [ left; destruct (S1 [("maxAge", JNum (-1))]) as [A B];
                 repeat split; [exact A | exact B]
               | right;
                 match goal with
                 | |- context [spread ?base (options (sessionTokenCookie o))] =>
                     destruct (S2 base) as [A B];
                     repeat split; [exact A | intros E U; rewrite (B E); try reflexivity; congruence]
                 end ] .. ]).
Qed.
End Coverage.

Section Late.
Context {L : NodeLib}.
Variables (w : world) (req : request) (o : config) (p : provider).
Hypothesis provider_found : find_provider (providerName o) (providers o) = Some p.

(** X8.  In the oauth and email branches the session cookie has been
    written when the sign-in event is dispatched, and it stays the one
    cookie of the response when the event throws.  When what it throws has
    a [name] to read, the exception is caught and the response is the
    redirect to the error page of that name; when it is [undefined] or
    [null], reading [error.name] throws inside the [catch]: nothing is
    written to the response, [done] is not called and a promise is
    rejected. *)
Theorem event_failure_after_session (e : exn) :
  type p = "oauth" \/ type p = "email" ->
  let r := callback w req o in
  outcome HDispatchEvent (trace r) = Some (Thr e) ->
  (exists token opts,
     cookie_writes (trace r) = [(name (sessionTokenCookie o), token, opts)])
  /\ match exn_name e with
     | Some n =>
         rejected r = None
         /\ status (trace r) = Some 302%Z
         /\ location (trace r)
            = Some (error_page o (if type p =? "oauth" then oauth_error_code n
                                  else email_error_code n))
     | None =>
         rejected r
         = Some (TypeError "Cannot read properties of undefined (reading 'name')")
         /\ status (trace r) = None
         /\ location (trace r) = None
         /\ count is_done (trace r) = 0
     end.
Proof.
  intros [Ht | Ht] r; subst r; unfold oauth_error_code, email_error_code.
  - rewrite (callback_oauth w req provider_found Ht), Ht. run_handler.
    paths2; intros; tidy; repeat split; eauto.
  - rewrite (callback_email w req provider_found Ht), Ht. run_handler.
    paths2; intros; tidy; repeat split; eauto.
Qed.

End Late.

Section Sso.
Context {L : NodeLib}.
Variables (w : world) (req : request) (o : config) (p : provider).
Hypothesis provider_found : find_provider (providerName o) (providers o) = Some p.
Hypothesis is_discourse : type p = "discourse".

(** X9.  A callback of the discourse provider without [sso] or without [sig] (or
    with an empty one) logs the missing parameters and answers with the
    redirect to the [oAuthCallback] error page; nothing else happens. *)
Theorem sso_parameters_required :
  nonempty (lookup "sso" (query req)) = None
  \/ nonempty (lookup "sig" (query req)) = None ->
  callback w req o
  = ([LogError "CALLBACK_OAUTH_ERROR" (JStr "Missing sso / sig query");
      Status 302; SetHeader "Location" (error_page o "oAuthCallback");
      End None; Done], Exit).
Proof.
  intros H. rewrite (callback_discourse w req provider_found is_discourse).
  run_handler. destruct H as [H | H]; rewrite H; [|break_match]; reflexivity.
Qed.

(** X10.  A callback of the discourse provider calls a hook of the application
    only when [sig] is the HMAC of the decoded [sso], the payload carries a
    nonce whose HMAC is the value of the nonce cookie, and the payload has
    an [external_id], an [email] and a [username]. *)
Theorem sso_hooks_need_verified_payload :
  hooks_called (trace (callback w req o)) <> [] ->
  exists sso sig d n c,
    nonempty (lookup "sso" (query req)) = Some sso
    /\ nonempty (lookup "sig" (query req)) = Some sig
    /\ lib_decodeURIComponent sso = Some d
    /\ sig = lib_hmac (secret p) d
    /\ get "nonce" (sso_fields sso) = JStr n
    /\ cookies req = Some c
    /\ nonempty (lookup (name (nonceHashCookie o)) c) = Some (lib_hmac (secret p) n)
    /\ truthy (get "external_id" (sso_fields sso)) = true
    /\ truthy (get "email" (sso_fields sso)) = true
    /\ truthy (get "username" (sso_fields sso)) = true.
Proof.
  rewrite (callback_discourse w req provider_found is_discourse).
  unfold sso_fields. run_handler.
  destruct (nonempty (lookup "sso" (query req))) as [sso|] eqn:Hs;
    [|cbn; congruence].
  destruct (nonempty (lookup "sig" (query req))) as [sig|] eqn:Hg;
    [|cbn; congruence].
  destruct (lib_decodeURIComponent sso) as [d|] eqn:Hd; [|cbn; congruence].
  destruct (sig =? lib_hmac (secret p) d) eqn:E; cbn [negb]; [|cbn; congruence].
  apply String.eqb_eq in E.
  destruct (get "nonce" (lib_parse (lib_utf8 (lib_unbase64 sso)))) as [| | | | |n| |] eqn:Hn;
    try (cbn; congruence).
  destruct (cookies req) as [c|] eqn:Hc; [|cbn; congruence].
  destruct (lookup (name (nonceHashCookie o)) c) as [b|] eqn:Hb;
    cbn [of_option loose_neq truthy negb orb]; [|cbn; congruence].
  destruct (b =? lib_hmac (secret p) n) eqn:Eb; cbn [negb orb]; [|cbn; congruence].
  apply String.eqb_eq in Eb. subst b.
  destruct (lib_hmac (secret p) n =? EmptyString) eqn:Ee; cbn [negb orb];
    [cbn; congruence|].
  destruct (truthy (get "external_id" (lib_parse (lib_utf8 (lib_unbase64 sso))))) eqn:T1;
    cbn [negb orb]; [|cbn; congruence].
  destruct (truthy (get "email" (lib_parse (lib_utf8 (lib_unbase64 sso))))) eqn:T2;
    cbn [negb orb]; [|cbn; congruence].
  destruct (truthy (get "username" (lib_parse (lib_utf8 (lib_unbase64 sso))))) eqn:T3;
    cbn [negb orb]; [|cbn; congruence].
  intros _. exists sso, sig, d, n, c. rewrite Hb. unfold nonempty. rewrite Ee.
  repeat split; auto.
Qed.


(** X12.  The profile and the account given to the sign-in hook by the discourse
    branch are read off the payload: [id] is [external_id], [name] falls
    back to [username] and is never empty, [image] falls back to the empty
    string, [admin] and [moderator] are [true] only for the text [true],
    and the account names the provider. *)
Theorem sso_profile_from_payload (args : list jsval) :
  arguments HSignin (trace (callback w req o)) = Some args ->
  exists sso profile account,
    nonempty (lookup "sso" (query req)) = Some sso
    /\ args = [JObj profile; JObj account; JNull]
    /\ get "id" profile = get "external_id" (sso_fields sso)
    /\ get "email" profile = get "email" (sso_fields sso)
    /\ get "username" profile = get "username" (sso_fields sso)
    /\ get "name" profile
       = js_or (get "name" (sso_fields sso)) (get "username" (sso_fields sso))
    /\ truthy (get "name" profile) = true
    /\ get "image" profile
       = js_or (get "avatar_url" (sso_fields sso)) (JStr EmptyString)
    /\ get "admin" profile = JBool (is_string_true (get "admin" (sso_fields sso)))
    /\ get "moderator" profile
       = JBool (is_string_true (get "moderator" (sso_fields sso)))
    /\ get "id" account = get "external_id" (sso_fields sso)
    /\ get "type" account = JStr "discourse"
    /\ get "provider" account = JStr (id p).
Proof.
  rewrite (callback_discourse w req provider_found is_discourse).
  unfold sso_fields. run_handler.
  destruct (nonempty (lookup "sso" (query req))) as [sso|] eqn:Hs;
    [|cbn; congruence].
  intros H. exists sso.
  set (f := lib_parse (lib_utf8 (lib_unbase64 sso))) in *.
  assert (T : negb (truthy (get "external_id" f)) || negb (truthy (get "email" f))
              || negb (truthy (get "username" f)) = false ->
              truthy (js_or (get "name" f) (get "username" f)) = true).
  { intros E. apply orb_false_elim in E. destruct E as [_ E].
    apply negb_false_iff in E. unfold js_or.
    destruct (truthy (get "name" f)) eqn:N; assumption. }
  revert H. paths2; intros H; tidy.
  all: do 2 eexists; split; [reflexivity|]; split; [reflexivity|];
    cbn [get String.eqb Ascii.eqb Bool.eqb]; rewrite ?is_discourse;
    repeat split; auto.
Qed.

End Sso.

Section OAuthBranch.
Context {L : NodeLib}.
Variables (w : world) (req : request) (o : config) (p : provider).
Hypothesis provider_found : find_provider (providerName o) (providers o) = Some p.
Hypothesis is_oauth : type p = "oauth".

(** X13.  When the OAuth transport reports an error the oauth branch logs it and
    redirects to the [oAuthCallback] error page; when it reports neither an
    error nor a profile the branch redirects to the sign-in page.  No hook
    is called in either case. *)
Theorem oauth_without_profile (error profile account raw : jsval) :
  oAuthCallback w = OAuthCalls error profile account raw ->
  (truthy error = true ->
   callback w req o
   = ([OAuth; LogError "CALLBACK_OAUTH_ERROR" error;
       Status 302; SetHeader "Location" (error_page o "oAuthCallback");
       End None; Done], Exit))
  /\ (truthy error = false -> truthy profile = false ->
      callback w req o
      = ([OAuth; LogDebug "OAUTH_CALLBACK_RESPONSE";
          Status 302; SetHeader "Location" (baseUrl o ++ "/signin");
          End None; Done], Exit)).
Proof.
  intros Ho. rewrite (callback_oauth w req provider_found is_oauth).
  run_handler. rewrite Ho. split.
  - intros ->. reflexivity.
  - intros -> ->. reflexivity.
Qed.

(** X14.  The error pages of the oauth branch: a transport that throws
    gives [Callback]; a hook that throws something with the name
    [AccountNotLinkedError] gives [OAuthAccountNotLinked],
    [CreateUserError] gives [OAuthCreateAccount], anything else with a
    [name] to read gives [Callback] and is the only case that is logged;
    a hook that throws [undefined] or [null] makes the [catch] itself
    throw, with nothing written to the response; and a [callbackHandler]
    that returns [null] or [undefined] gives [Callback] with no cookie
    written. *)
Theorem oauth_error_pages :
  let r := callback w req o in
  (forall e, oAuthCallback w = OAuthThrows e ->
     r = ([OAuth; LogError "OAUTH_CALLBACK_ERROR" (js_of_exn e);
           Status 302; SetHeader "Location" (error_page o "Callback");
           End None; Done], Exit))
  /\ (forall e, thrown (trace r) = Some e ->
      match exn_name e with
      | Some n =>
          rejected r = None
          /\ status (trace r) = Some 302%Z
          /\ location (trace r) = Some (error_page o (oauth_error_code n))
          /\ reported "OAUTH_CALLBACK_HANDLER_ERROR" (trace r)
             = (oauth_error_code n =? "Callback")
      | None =>
          rejected r
          = Some (TypeError "Cannot read properties of undefined (reading 'name')")
          /\ status (trace r) = None
          /\ location (trace r) = None
          /\ count is_done (trace r) = 0
      end)
  /\ (forall answer, outcome HCallbackHandler (trace r) = Some (Ret answer) ->
      member "user" answer = None ->
      rejected r = None
      /\ location (trace r) = Some (error_page o "Callback")
      /\ cookie_writes (trace r) = []).
Proof.
  intros r. subst r. rewrite (callback_oauth w req provider_found is_oauth).
  unfold oauth_error_code. run_handler. split; [|split].
  - intros e ->. reflexivity.
  - intros e. paths2; intros; tidy; repeat split.
  - intros answer. paths2; intros; tidy; named; repeat split.
Qed.

End OAuthBranch.

Section EmailBranch.
Context {L : NodeLib}.
Variables (w : world) (req : request) (o : config) (p : provider).
Hypothesis provider_found : find_provider (providerName o) (providers o) = Some p.
Hypothesis is_email : type p = "email".

(** X15.  Without an adapter a callback of an email provider logs
    [EMAIL_REQUIRES_ADAPTER_ERROR] and redirects to the [Configuration]
    error page; nothing else happens. *)
Theorem email_requires_adapter :
  adapter o = false ->
  callback w req o
  = ([LogError "EMAIL_REQUIRES_ADAPTER_ERROR" JUndefined;
      Status 302; SetHeader "Location" (error_page o "Configuration");
      End None; Done], Exit).
Proof.
  intros H. rewrite (callback_email w req provider_found is_email).
  run_handler. rewrite H. reflexivity.
Qed.

(** X16.  In the email branch a hook that throws something with the name
    [CreateUserError] gives the redirect to [EmailCreateAccount] and is not
    logged; anything else with a [name] to read gives [Callback] and is
    logged, and the promise is not rejected.  A hook that throws
    [undefined] or [null] makes the [catch] itself throw: nothing is
    written to the response, [done] is not called and the promise is
    rejected. *)
Theorem email_error_pages (e : exn) :
  let r := callback w req o in
  thrown (trace r) = Some e ->
  match exn_name e with
  | Some n =>
      rejected r = None
      /\ status (trace r) = Some 302%Z
      /\ location (trace r) = Some (error_page o (email_error_code n))
      /\ reported "CALLBACK_EMAIL_ERROR" (trace r)
         = (email_error_code n =? "Callback")
  | None =>
      rejected r
      = Some (TypeError "Cannot read properties of undefined (reading 'name')")
      /\ status (trace r) = None
      /\ location (trace r) = None
      /\ count is_done (trace r) = 0
  end.
Proof.
  intros r. subst r. rewrite (callback_email w req provider_found is_email).
  unfold email_error_code. run_handler.
  paths2; intros; tidy; repeat split.
Qed.

(** X17.  In the email branch the sign-in hook is asked about the user found for
    the address of the link, or about the bare address when there is none,
    with an account of type [email] for that address; the verification
    request was looked up and deleted with the address and token of the
    link, the secret and the provider. *)
Theorem email_profile_and_token (args : list jsval) :
  let t := trace (callback w req o) in
  let address := of_option (lookup "email" (query req)) in
  let token := of_option (lookup "token" (query req)) in
  arguments HSignin t = Some args ->
  exists found,
    outcome HGetUserByEmail t = Some (Ret found)
    /\ arguments HGetUserByEmail t = Some [address]
    /\ args
       = [js_or found (JObj [("email", address)]);
          JObj [("id", JStr (id p)); ("type", JStr "email");
                ("providerAccountId", address)];
          JNull]
    /\ arguments HGetVerificationRequest t
       = Some [address; token; JStr (optSecret o); js_of_provider p]
    /\ arguments HDeleteVerificationRequest t
       = arguments HGetVerificationRequest t.
Proof.
  intros t address token. subst t address token.
  rewrite (callback_email w req provider_found is_email). run_handler.
  paths2; intros; tidy; eexists; repeat split.
Qed.

End EmailBranch.

Section CredentialsBranch.
Context {L : NodeLib}.
Variables (w : world) (req : request) (o : config) (p : provider).
Hypothesis provider_found : find_provider (providerName o) (providers o) = Some p.
Hypothesis is_credentials : type p = "credentials".
Hypothesis is_post : method req = "POST".

(** X18.  A credentials callback with database sessions, or for a provider
    without [authorize], logs the fault and redirects to the
    [Configuration] error page; nothing else happens: [authorize] is not
    called. *)
Theorem credentials_need_token_sessions :
  (useJwtSession o = false ->
   callback w req o
   = ([LogError "CALLBACK_CREDENTIALS_JWT_ERROR"
         (JStr "Signin in with credentials is only supported if JSON Web Tokens are enabled");
       Status 302; SetHeader "Location" (error_page o "Configuration");
       End None; Done], Exit))
  /\ (useJwtSession o = true -> authorize p = false ->
      callback w req o
      = ([LogError "CALLBACK_CREDENTIALS_HANDLER_ERROR"
            (JStr "Must define an authorize() handler to use credentials authentication provider");
          Status 302; SetHeader "Location" (error_page o "Configuration");
          End None; Done], Exit)).
Proof.
  rewrite (callback_credentials w req provider_found is_credentials is_post).
  run_handler. split.
  - intros ->. reflexivity.
  - intros -> ->. reflexivity.
Qed.

(** X19.  In the credentials branch the sign-in hook is asked about the user that
    [authorize] returned for the request body, which is truthy; no user is
    resolved through [callbackHandler], and the token payload holds that
    user and the account only. *)
Theorem credentials_sign_in_what_authorize_returned (args : list jsval) :
  let t := trace (callback w req o) in
  arguments HSignin t = Some args ->
  exists user,
    arguments HAuthorize t = Some [body req]
    /\ outcome HAuthorize t = Some (Ret user)
    /\ truthy user = true
    /\ args = [user; JObj [("id", JStr (id p)); ("type", JStr "credentials")];
               body req]
    /\ called HCallbackHandler t = false
    /\ (forall payload, arguments HJwt t = Some payload ->
        payload
        = [JObj [("user", user);
                 ("account",
                  JObj [("id", JStr (id p)); ("type", JStr "credentials")])]]).
Proof.
  intros t. subst t.
  rewrite (callback_credentials w req provider_found is_credentials is_post).
  run_handler.
  paths2; intros; tidy; eexists; repeat split; intros; tidy.
Qed.

(** X20.  A credentials callback whose sign-in event was dispatched has written
    exactly one cookie, the session cookie with the token of [jwt.encode],
    and answers with the redirect to the callback URL, or to the site when
    none is set. *)
Theorem credentials_success (v : jsval) :
  let t := trace (callback w req o) in
  outcome HDispatchEvent t = Some (Ret v) ->
  exists token,
    outcome HJwtEncode t = Some (Ret token)
    /\ cookie_writes t
       = [(name (sessionTokenCookie o), token,
           spread [("expires", JStr (lib_iso (now w + sessionMaxAge o * 1000)))]
                  (options (sessionTokenCookie o)))]
    /\ status t = Some 302%Z
    /\ location t = Some (destination o)
    /\ rejected (callback w req o) = None.
Proof.
  intros t. subst t.
  rewrite (callback_credentials w req provider_found is_credentials is_post).
  unfold destination. run_handler.
  paths2; intros; tidy; eexists; repeat split.
Qed.

End CredentialsBranch.

Module EscapeFacts.
Import Uri.
Local Open Scope N_scope.

Lemma hex_table :
  forallb (fun k => match hex_val (upper_hex k) with
                    | Some v => (v =? k)
                                && negb (existsb (Ascii.eqb (upper_hex k))
                                           (list_ascii_of_string "&+=%"))
                    | None => false
                    end)
          (map N.of_nat (seq 0 16)) = true.
Proof. vm_compute. reflexivity. Qed.

Lemma upper_hex_ok (k : N) :
  k < 16 ->
  hex_val (upper_hex k) = Some k
  /\ existsb (Ascii.eqb (upper_hex k)) (list_ascii_of_string "&+=%") = false.
Proof.
  intros H.
  assert (I : In k (map N.of_nat (seq 0 16))).
  { apply in_map_iff. exists (N.to_nat k). split; [apply N2Nat.id|].
    apply in_seq. lia. }
  pose proof (proj1 (forallb_forall _ _) hex_table k I) as T. cbn beta in T.
  destruct (hex_val (upper_hex k)); [|discriminate].
  apply andb_prop in T. destruct T as [T1 T2].
  apply N.eqb_eq in T1. apply negb_true_iff in T2. subst. auto.
Qed.

Lemma unreserved_plain (c : ascii) :
  unreserved c = true ->
  existsb (Ascii.eqb c) (list_ascii_of_string "&+=%") = false.
Proof.
  destruct c as [[] [] [] [] [] [] [] []]; vm_compute; congruence.
Qed.

Lemma high_nibble (c : ascii) : N_of_ascii c / 16 < 16.
Proof.
  apply N.Div0.div_lt_upper_bound. pose proof (N_ascii_bounded c). lia.
Qed.

Lemma low_nibble (c : ascii) : N_of_ascii c mod 16 < 16.
Proof. apply N.mod_lt. lia. Qed.

(** An escaped component has none of [&], [+] and [=]. *)
Lemma encode_is_plain (c : ascii) (s : string) :
  existsb (Ascii.eqb c) (list_ascii_of_string "&+=") = true ->
  lacks c (encodeURIComponent s) = true.
Proof.
  intros Hc.
  assert (P : forall x, existsb (Ascii.eqb x) (list_ascii_of_string "&+=%") = false ->
                        Ascii.eqb x c = false).
  { intros x Hx. destruct (Ascii.eqb x c) eqn:E; [|reflexivity].
    apply Ascii.eqb_eq in E. subst x. cbn in Hc, Hx.
    repeat match goal with
           | H : _ || _ = false |- _ => apply orb_false_elim in H; destruct H
           end.
    repeat match goal with
           | H : Ascii.eqb c _ = false |- _ => rewrite H in Hc
           end.
    discriminate. }
  assert (Q : Ascii.eqb "%"%char c = false).
  { destruct (Ascii.eqb "%"%char c) eqn:E; [|reflexivity].
    apply Ascii.eqb_eq in E. subst c. discriminate. }
  induction s as [|x r IH]; [reflexivity|].
  cbn [encodeURIComponent]. destruct (unreserved x) eqn:U; cbn [lacks].
  - now rewrite (P x (unreserved_plain x U)), IH.
  - rewrite Q, (P _ (proj2 (upper_hex_ok _ (high_nibble x)))),
      (P _ (proj2 (upper_hex_ok _ (low_nibble x)))), IH. reflexivity.
Qed.

Lemma unescape_escape_fuel (n : nat) :
  forall s, (String.length (encodeURIComponent s) < n)%nat ->
  ascii_only s = true ->
  decode_fuel n (encodeURIComponent s) = Some s.
Proof.
  induction n as [|n IH]; intros s Hn Hs; [lia|].
  destruct s as [|c r]; [reflexivity|].
  cbn [ascii_only] in Hs. apply andb_prop in Hs. destruct Hs as [Hc Hr].
  cbn [encodeURIComponent] in *. destruct (unreserved c) eqn:U.
  - cbn [decode_fuel].
    assert (E : Ascii.eqb c "%"%char = false).
    { pose proof (unreserved_plain c U) as P. cbn in P.
      repeat (apply orb_false_elim in P; destruct P as [? P]). 
      repeat match goal with
           | H : _ || _ = false |- _ => apply orb_false_elim in H; destruct H
           end. assumption. }
    rewrite E, IH; [reflexivity | cbn in Hn; lia | exact Hr].
  - cbn [decode_fuel Ascii.eqb Bool.eqb escape].
    rewrite (proj1 (upper_hex_ok _ (high_nibble c))),
      (proj1 (upper_hex_ok _ (low_nibble c))).
    replace (16 * (N_of_ascii c / 16) + N_of_ascii c mod 16) with (N_of_ascii c)
      by (pose proof (N.div_mod (N_of_ascii c) 16); lia).
    rewrite Hc, ascii_N_embedding, IH; [reflexivity | cbn in Hn; lia | exact Hr].
Qed.

(** Escaping and unescaping a component of ASCII text gives it back. *)
Lemma unescape_escape (s : string) :
  ascii_only s = true ->
  decodeURIComponent (encodeURIComponent s) = Some s.
Proof. intros H. apply unescape_escape_fuel; [lia | exact H]. Qed.

End EscapeFacts.

Module RedirectFacts.
Import EscapeFacts QuerystringFacts.
Local Open Scope N_scope.

Lemma char_of_ascii (x : N) : (N_of_ascii (Base64.char_of x) <? 128) = true.
Proof.
  unfold Base64.char_of.
  destruct (nth_in_or_default (N.to_nat x)
              (list_ascii_of_string Base64.alphabet) "A"%char) as [I | E].
  - revert I. generalize (nth (N.to_nat x) (list_ascii_of_string Base64.alphabet) "A"%char).
    intros c I.
    assert (F : forallb (fun c => N_of_ascii c <? 128)
                  (list_ascii_of_string Base64.alphabet) = true)
      by (vm_compute; reflexivity).
    exact (proj1 (forallb_forall _ _) F c I).
  - rewrite E. reflexivity.
Qed.

Lemma base64_ascii (n : nat) :
  forall s, (String.length s <= n)%nat -> ascii_only (Base64.encode s) = true.
Proof.
  induction n as [|n IH]; intros s Hs.
  - destruct s; [reflexivity | cbn in Hs; lia].
  - destruct s as [|a [|b [|c r]]]; [reflexivity | | |];
      cbn [Base64.encode ascii_only]; rewrite ?char_of_ascii;
      cbn [andb N_of_ascii]; try reflexivity.
    apply IH. cbn in Hs. lia.
Qed.

Lemma lacks_hex (c : ascii) (l : list N) :
  is_hex c = false -> lacks c (Bytes.to_hex l) = true.
Proof. apply NonceFacts.hex_nonce_is_plain. Qed.

(** The query string of the redirect parses to the payload and its
    signature. *)
Lemma parse_redirect (sso : string) (digest : list N) :
  ascii_only sso = true ->
  Querystring.parse
    ("sso=" ++ Uri.encodeURIComponent sso ++ "&sig=" ++ Bytes.to_hex digest)%string
  = [("sso", JStr sso); ("sig", JStr (Bytes.to_hex digest))].
Proof.
  intros A. unfold Querystring.parse.
  set (enc := Uri.encodeURIComponent sso). set (sig := Bytes.to_hex digest).
  replace ("sso=" ++ enc ++ "&sig=" ++ sig)%string
    with (("sso=" ++ enc) ++ String "&" ("sig=" ++ sig))%string by reflexivity.
  assert (E1 : lacks "&"%char enc = true) by (apply encode_is_plain; reflexivity).
  assert (E2 : lacks "+"%char enc = true) by (apply encode_is_plain; reflexivity).
  assert (S1 : lacks "&"%char sig = true) by (apply lacks_hex; reflexivity).
  assert (S2 : lacks "+"%char sig = true) by (apply lacks_hex; reflexivity).
  assert (S3 : lacks "%"%char sig = true) by (apply lacks_hex; reflexivity).
  rewrite split_app by (rewrite lacks_app, E1; reflexivity).
  rewrite split_plain by (rewrite lacks_app, S1; reflexivity).
  cbn [firstn fold_left]. unfold Querystring.add_pair.
  replace ("sso=" ++ enc)%string with ("sso" ++ String "=" enc)%string by reflexivity.
  replace ("sig=" ++ sig)%string with ("sig" ++ String "=" sig)%string by reflexivity.
  rewrite !cut_app by reflexivity.
  cbn [append String.eqb Ascii.eqb Bool.eqb].
  rewrite (CodecFacts.unescape_value sig S2 S3).
  rewrite (CodecFacts.unescape_value "sso"), (CodecFacts.unescape_value "sig")
    by reflexivity.
  rewrite plus_to_space_plain by exact E2.
  unfold Querystring.unescape, enc. rewrite unescape_escape by exact A.
  reflexivity.
Qed.

End RedirectFacts.

(** X21.  The URL that the initiation hands out is the forum's
    [/session/sso_provider] with a query string that parses to the two
    parameters [sso] and [sig]: escaping the base64 payload loses nothing,
    [sso] decodes to [nonce=<nonce>&return_sso_url=<callbackUrl>], [sig] is
    its HMAC, and the nonce hash handed out with it is the HMAC of the
    nonce. *)
Theorem redirect_url_carries_signed_payload (p : provider) (buf : list N) :
  let nonce := Bytes.to_hex buf in
  let sso := fst (sign (L := node) (secret p) nonce (callbackUrl p)) in
  let sig := snd (sign (L := node) (secret p) nonce (callbackUrl p)) in
  exists q,
    snd (authorisation (L := node) p buf)
    = (url p ++ "/session/sso_provider?" ++ q)%string
    /\ Querystring.parse q = [("sso", JStr sso); ("sig", JStr sig)]
    /\ Base64.decode sso = payload_of nonce (callbackUrl p)
    /\ sig = hmac_sha256_hex (secret p) sso
    /\ fst (authorisation (L := node) p buf) = hmac_sha256_hex (secret p) nonce.
Proof.
  intros nonce sso sig.
  exists ("sso=" ++ Uri.encodeURIComponent sso ++ "&sig=" ++ sig)%string.
  split; [reflexivity|]. split.
  - apply RedirectFacts.parse_redirect.
    apply (RedirectFacts.base64_ascii
             (String.length (payload_of nonce (callbackUrl p)))). lia.
  - split; [apply Base64Facts.decode_encode|]. split; reflexivity.
Qed.

(** X22.  The payload that the initiation signs cannot be played back as a
    callback: with the nonce cookie of the same initiation it passes the
    signature check and the nonce check, the nonce binding is cleared, and
    the callback is refused for its missing fields, before any hook. *)
Theorem initiation_payload_is_no_proof
  (w : world) (req : request) (o : config) (p : provider) (buf : list N)
  (c : list (string * string)) :
  find_provider (providerName o) (providers o) = Some p ->
  type p = "discourse" ->
  lacks "&"%char (callbackUrl p) = true ->
  lacks "+"%char (callbackUrl p) = true ->
  lacks "%"%char (callbackUrl p) = true ->
  let nonce := Bytes.to_hex buf in
  lookup "sso" (query req)
  = Some (fst (sign (L := node) (secret p) nonce (callbackUrl p))) ->
  lookup "sig" (query req)
  = Some (snd (sign (L := node) (secret p) nonce (callbackUrl p))) ->
  cookies req = Some c ->
  lookup (name (nonceHashCookie o)) c
  = Some (fst (authorisation (L := node) p buf)) ->
  let r := callback (L := node) w req o in
  logged "Non-matching sig / sso keys" (trace r) = false
  /\ logged "Non-matching nonce" (trace r) = false
  /\ logged "Missing property on returned object" (trace r) = true
  /\ hooks_called (trace r) = []
  /\ cookie_writes (trace r) = [nonce_clearing o]
  /\ status (trace r) = Some 302%Z
  /\ location (trace r) = Some (error_page o "oAuthCallback")
  /\ rejected r = None.
Proof.
  intros Hp Ht U1 U2 U3 nonce Hs Hg Hc Hb r.
  set (payload := payload_of nonce (callbackUrl p)).
  set (sso := Base64.encode payload) in *.
  set (sig := hmac_sha256_hex (secret p) sso) in *.
  change (fst (sign (L := node) (secret p) nonce (callbackUrl p))) with sso in Hs.
  change (snd (sign (L := node) (secret p) nonce (callbackUrl p))) with sig in Hg.
  change (fst (authorisation (L := node) p buf))
    with (hmac_sha256_hex (secret p) nonce) in Hb.
  assert (Ne : (sso =? EmptyString) = false).
  { apply String.eqb_neq. apply Base64Facts.encode_not_empty.
    unfold payload, payload_of. cbn [append]. discriminate. }
  assert (Ng : (sig =? EmptyString) = false).
  { apply String.eqb_neq. apply Sha256Facts.hmac_not_empty. }
  assert (Nb : (hmac_sha256_hex (secret p) nonce =? EmptyString) = false).
  { apply String.eqb_neq. apply Sha256Facts.hmac_not_empty. }
  assert (Hd : Uri.decodeURIComponent sso = Some sso).
  { apply UriFacts.decodeURIComponent_plain.
    apply (Base64Facts.encode_lacks_percent (String.length payload)). lia. }
  assert (Hb64 : Base64.decode sso = payload) by apply Base64Facts.decode_encode.
  assert (Hq : Querystring.parse payload
               = [("nonce", JStr nonce); ("return_sso_url", JStr (callbackUrl p))]).
  { apply CodecFacts.parse_payload; try assumption;
      apply NonceFacts.hex_nonce_is_plain; reflexivity. }
  subst r. rewrite (callback_discourse w req Hp Ht). unfold nonce_clearing.
  run_handler.
  rewrite Hs, Hg. unfold nonempty. rewrite Ne, Ng.
  cbn [lib_decodeURIComponent lib_hmac lib_unbase64 lib_utf8 lib_parse node].
  fold sig. rewrite Hd. fold sig. rewrite String.eqb_refl, Hb64, Hq.
  cbn [negb orb get truthy String.eqb Ascii.eqb Bool.eqb].
  rewrite Hc, Hb.
  cbn [of_option loose_neq truthy]. rewrite String.eqb_refl, Nb.
  cbn. repeat split.
Qed.

Module ProviderFacts.
Import Provider.

Lemma field_put (k k' : string) (v : entry) (r : record) :
  field k (put k' v r) = if k =? k' then Some v else field k r.
Proof.
  induction r as [|[a x] r IH]; cbn [put field].
  - reflexivity.
  - destruct (k' =? a) eqn:E; cbn [field].
    + apply String.eqb_eq in E. subst a. destruct (k =? k'); reflexivity.
    + rewrite IH. destruct (k =? a) eqn:F; [|reflexivity].
      apply String.eqb_eq in F. subst a.
      rewrite String.eqb_sym in E. now rewrite E.
Qed.

Lemma field_extend (k : string) (o : obj) :
  NoDup (map fst o) ->
  forall base,
    field k (extend base (map (fun kv => (fst kv, Data (snd kv))) o))
    = if has k o then Some (Data (get k o)) else field k base.
Proof.
  unfold extend. induction o as [|[a x] r IH]; intros N base;
    cbn [map fold_left has get fst snd].
  - reflexivity.
  - cbn [map fst] in N. inversion N as [|? ? Na Nr]; subst.
    rewrite (IH Nr), field_put.
    destruct (String.eqb_spec k a); cbn [orb]; [|reflexivity].
    subst a. assert (H : has k r = false).
    { clear - Na. induction r as [|[b y] r IH]; cbn [has map fst In] in *; [reflexivity|].
      rewrite IH by tauto. destruct (String.eqb_spec k b); [subst; tauto | reflexivity]. }
    now rewrite H.
Qed.

End ProviderFacts.

(** X23.  The object that [Discourse(options)] returns has every property of the
    options with its value, also [id], [type] and [profile] when the
    options set them, and the defaults of the provider for the others. *)
Theorem discourse_provider_options_win (o : obj) (k : string) :
  NoDup (map fst o) ->
  exists r,
    Provider.Discourse (Some o) = inr r
    /\ Provider.field k r
       = (if has k o then Some (Provider.Data (get k o))
          else Provider.field k Provider.defaults)
    /\ (has "type" o = false ->
        Provider.field "type" r = Some (Provider.Data (JStr "discourse")))
    /\ (has "id" o = false ->
        Provider.field "id" r = Some (Provider.Data (JStr "discourse")))
    /\ (has "profile" o = false ->
        Provider.field "profile" r = Some (Provider.Method Provider.profile)).
Proof.
  intros N. eexists. split; [reflexivity|].
  rewrite !ProviderFacts.field_extend by assumption.
  repeat split; intros ->; reflexivity.
Qed.

(** * Instances of the further properties *)

Import Cases.

Lemma no_session_without_signin_witness :
  let o := settings "discourse" in
  let t := trace (callback (L := node) (answering HSignin (Ret (JBool false)) app)
                    (sso_callback profile_sso profile_sig binding_abc123) o) in
  (cookie_writes t = [] \/ cookie_writes t = [nonce_clearing o])
  /\ called HCallbackHandler t = false
  /\ called HJwt t = false /\ called HJwtEncode t = false
  /\ called HDispatchEvent t = false.
Proof.
  apply (no_session_without_signin (L := node)
           (answering HSignin (Ret (JBool false)) app)
           (sso_callback profile_sso profile_sig binding_abc123)
           (settings "discourse")).
  vm_compute. reflexivity.
Defined.

Lemma user_resolved_for_approved_profile_witness :
  let t := trace (callback (L := node) app email_link (settings "email")) in
  exists profile account raw,
    [JUndefined; JObj [("email", JStr "a@b.com")];
     JObj [("id", JStr "email"); ("type", JStr "email");
           ("providerAccountId", JStr "a@b.com")]]
    = [current_session email_link (settings "email"); profile; account]
    /\ arguments HSignin t = Some [profile; account; raw]
    /\ allowed t = true.
Proof.
  apply (user_resolved_for_approved_profile (L := node) app email_link
           (settings "email")).
  vm_compute. reflexivity.
Defined.

Lemma token_session_cookie_witness :
  (let o := settings "github" in
   let t := trace (callback (L := node) app oauth_return o) in
   In (name (sessionTokenCookie o), JStr "signed.jwt",
       spread [("expires", JStr (@lib_iso node (now app + sessionMaxAge o * 1000)))]
              (options (sessionTokenCookie o)))
      (cookie_writes t))
  /\ (let o := with_lifetime 10000000000000000 (settings "credentials") in
      let t := trace (callback (L := node) app credentials_post o) in
      (cookie_writes t = [] \/ cookie_writes t = [nonce_clearing o])
      /\ called HDispatchEvent t = false).
Proof.
  assert (E : outcome HJwtEncode
                (trace (callback (L := node) app oauth_return (settings "github")))
              = Some (Ret (JStr "signed.jwt"))) by (vm_compute; reflexivity).
  assert (E' : outcome HJwtEncode
                 (trace (callback (L := node) app credentials_post
                           (with_lifetime 10000000000000000 (settings "credentials"))))
               = Some (Ret (JStr "signed.jwt"))) by (vm_compute; reflexivity).
  split.
  - exact (proj2 (token_session_cookie (L := node) app oauth_return
                    (settings "github")) (JStr "signed.jwt") E).
  - exact (proj2 (token_session_cookie (L := node) app credentials_post
                    (with_lifetime 10000000000000000 (settings "credentials")))
             (JStr "signed.jwt") E').
Defined.

Lemma database_session_cookie_witness :
  let o := database_sessions (settings "github") in
  let t := trace (callback (L := node) app oauth_return o) in
  called HJwt t = false /\ called HJwtEncode t = false
  /\ In (name (sessionTokenCookie o), JStr "opaque",
         spread [("expires", js_or JNull JNull)] (options (sessionTokenCookie o)))
        (cookie_writes t).
Proof.
  destruct (database_session_cookie (L := node) app oauth_return
              (database_sessions (settings "github")) eq_refl)
    as (J & E & _ & C & _).
  refine (conj J (conj E (C (value_of (run app HCallbackHandler []))
                            (JObj [("sessionToken", JStr "opaque"); ("expires", JNull)])
                            (JStr "opaque") JNull _ eq_refl eq_refl eq_refl))).
  vm_compute. reflexivity.
Defined.


Lemma configured_cookie_options_win_witness :
  let o := with_cookie_options
             [("maxAge", JNum 3600); ("path", JStr "/")]
             [("expires", JStr "Fri, 01 Jan 2100 00:00:00 GMT"); ("path", JStr "/")]
             (settings "discourse") in
  let t := trace (callback (L := node) app
                    (sso_callback profile_sso profile_sig "0000") o) in
  let opts := [("maxAge", JNum 3600); ("path", JStr "/")] in
  cookie_writes t = [("next-auth.nonce-hash", JStr EmptyString, opts)]
  /\ get "maxAge" opts = JNum 3600.
Proof.
  intros o t opts.
  assert (W : cookie_writes t = [("next-auth.nonce-hash", JStr EmptyString, opts)])
    by (vm_compute; reflexivity).
  assert (N : forall a b : string, a <> b -> NoDup [a; b]).
  { intros a b H. repeat constructor; cbn; intuition. }
  assert (I : In ("next-auth.nonce-hash", JStr EmptyString, opts) (cookie_writes t)).
  { rewrite W. left. reflexivity. }
  split; [exact W|].
  destruct (configured_cookie_options_win (L := node) app
              (sso_callback profile_sso profile_sig "0000") o
              "next-auth.nonce-hash" (JStr EmptyString) opts
              (N "maxAge" "path" ltac:(discriminate))
              (N "expires" "path" ltac:(discriminate)) I)
    as [(_ & _ & M & _) | (E & _)].
  - exact M.
  - discriminate E.
Defined.

Lemma event_failure_after_session_witness :
  (let o := settings "github" in
   let r := callback (L := node) (answering HDispatchEvent (Thr boom) app)
              oauth_return o in
   (exists token opts,
      cookie_writes (trace r) = [(name (sessionTokenCookie o), token, opts)])
   /\ rejected r = None
   /\ status (trace r) = Some 302%Z
   /\ location (trace r) = Some "https://app/api/auth/error?error=Callback")
  /\ (let o := settings "email" in
      let r := callback (L := node) (answering HDispatchEvent (Thr nothing) app)
                 email_link o in
      (exists token opts,
         cookie_writes (trace r) = [(name (sessionTokenCookie o), token, opts)])
      /\ rejected r
         = Some (TypeError "Cannot read properties of undefined (reading 'name')")
      /\ status (trace r) = None
      /\ location (trace r) = None
      /\ count is_done (trace r) = 0).
Proof.
  assert (D : outcome HDispatchEvent
                (trace (callback (L := node) (answering HDispatchEvent (Thr boom) app)
                          oauth_return (settings "github")))
              = Some (Thr boom)) by (vm_compute; reflexivity).
  assert (D' : outcome HDispatchEvent
                 (trace (callback (L := node)
                           (answering HDispatchEvent (Thr nothing) app)
                           email_link (settings "email")))
               = Some (Thr nothing)) by (vm_compute; reflexivity).
  split.
  - exact (event_failure_after_session (L := node)
             (answering HDispatchEvent (Thr boom) app) oauth_return
             (settings "github") github_provider eq_refl boom
             (or_introl eq_refl) D).
  - exact (event_failure_after_session (L := node)
             (answering HDispatchEvent (Thr nothing) app) email_link
             (settings "email") email_provider eq_refl nothing
             (or_intror eq_refl) D').
Defined.

Lemma sso_parameters_required_witness :
  callback (L := node) app oauth_return (settings "discourse")
  = ([LogError "CALLBACK_OAUTH_ERROR" (JStr "Missing sso / sig query");
      Status 302;
      SetHeader "Location" (error_page (settings "discourse") "oAuthCallback");
      End None; Done], Exit).
Proof.
  apply (sso_parameters_required (L := node) app oauth_return
           (settings "discourse") discourse_provider eq_refl eq_refl).
  left. reflexivity.
Defined.

Lemma sso_hooks_need_verified_payload_witness :
  let req := sso_callback profile_sso profile_sig binding_abc123 in
  exists sso sig d n c,
    nonempty (lookup "sso" (query req)) = Some sso
    /\ nonempty (lookup "sig" (query req)) = Some sig
    /\ Uri.decodeURIComponent sso = Some d
    /\ sig = hmac_sha256_hex "s3cret" d
    /\ get "nonce" (sso_fields (L := node) sso) = JStr n
    /\ cookies req = Some c
    /\ nonempty (lookup "next-auth.nonce-hash" c) = Some (hmac_sha256_hex "s3cret" n)
    /\ truthy (get "external_id" (sso_fields (L := node) sso)) = true
    /\ truthy (get "email" (sso_fields (L := node) sso)) = true
    /\ truthy (get "username" (sso_fields (L := node) sso)) = true.
Proof.
  apply (sso_hooks_need_verified_payload (L := node) app
           (sso_callback profile_sso profile_sig binding_abc123)
           (settings "discourse") discourse_provider eq_refl eq_refl).
  vm_compute. discriminate.
Defined.


Lemma sso_profile_from_payload_witness :
  let req := sso_callback profile_sso profile_sig binding_abc123 in
  exists sso profile account,
    nonempty (lookup "sso" (query req)) = Some sso
    /\ [JObj [("email", JStr "a@b.com"); ("name", JStr "ann");
              ("image", JStr EmptyString); ("username", JStr "ann");
              ("id", JStr "42"); ("admin", JBool false);
              ("moderator", JBool false)];
        JObj [("id", JStr "42"); ("type", JStr "discourse");
              ("provider", JStr "discourse")];
        JNull]
       = [JObj profile; JObj account; JNull]
    /\ get "id" profile = get "external_id" (sso_fields (L := node) sso)
    /\ get "email" profile = get "email" (sso_fields (L := node) sso)
    /\ get "username" profile = get "username" (sso_fields (L := node) sso)
    /\ get "name" profile
       = js_or (get "name" (sso_fields (L := node) sso))
               (get "username" (sso_fields (L := node) sso))
    /\ truthy (get "name" profile) = true
    /\ get "image" profile
       = js_or (get "avatar_url" (sso_fields (L := node) sso)) (JStr EmptyString)
    /\ get "admin" profile
       = JBool (is_string_true (get "admin" (sso_fields (L := node) sso)))
    /\ get "moderator" profile
       = JBool (is_string_true (get "moderator" (sso_fields (L := node) sso)))
    /\ get "id" account = get "external_id" (sso_fields (L := node) sso)
    /\ get "type" account = JStr "discourse"
    /\ get "provider" account = JStr (id discourse_provider).
Proof.
  apply (sso_profile_from_payload (L := node) app
           (sso_callback profile_sso profile_sig binding_abc123)
           (settings "discourse") discourse_provider eq_refl eq_refl).
  vm_compute. reflexivity.
Defined.

Lemma oauth_without_profile_witness :
  callback (L := node) (failing_transport (JStr "access_denied") app)
    oauth_return (settings "github")
  = ([OAuth; LogError "CALLBACK_OAUTH_ERROR" (JStr "access_denied");
      Status 302;
      SetHeader "Location" (error_page (settings "github") "oAuthCallback");
      End None; Done], Exit)
  /\ callback (L := node) (failing_transport JNull app) oauth_return (settings "github")
     = ([OAuth; LogDebug "OAUTH_CALLBACK_RESPONSE";
         Status 302; SetHeader "Location" "https://app/api/auth/signin";
         End None; Done], Exit).
Proof.
  split.
  - apply (proj1 (oauth_without_profile (L := node)
                    (failing_transport (JStr "access_denied") app) oauth_return
                    (settings "github") github_provider eq_refl eq_refl
                    (JStr "access_denied") JUndefined JUndefined JUndefined eq_refl)).
    reflexivity.
  - apply (proj2 (oauth_without_profile (L := node)
                    (failing_transport JNull app) oauth_return
                    (settings "github") github_provider eq_refl eq_refl
                    JNull JUndefined JUndefined JUndefined eq_refl)).
    + reflexivity.
    + reflexivity.
Defined.

Lemma oauth_error_pages_witness :
  (let r := callback (L := node) (broken_transport boom app) oauth_return
              (settings "github") in
   r = ([OAuth; LogError "OAUTH_CALLBACK_ERROR" (js_of_exn boom);
         Status 302;
         SetHeader "Location" (error_page (settings "github") "Callback");
         End None; Done], Exit))
  /\ (let r := callback (L := node) (answering HCallbackHandler (Thr not_linked) app)
                 oauth_return (settings "github") in
      rejected r = None
      /\ status (trace r) = Some 302%Z
      /\ location (trace r)
         = Some "https://app/api/auth/error?error=OAuthAccountNotLinked"
      /\ reported "OAUTH_CALLBACK_HANDLER_ERROR" (trace r) = false)
  /\ (let r := callback (L := node) (answering HSignin (Thr nothing) app)
                 oauth_return (settings "github") in
      rejected r
      = Some (TypeError "Cannot read properties of undefined (reading 'name')")
      /\ status (trace r) = None
      /\ location (trace r) = None
      /\ count is_done (trace r) = 0)
  /\ (let r := callback (L := node) (answering HCallbackHandler (Ret JNull) app)
                 oauth_return (settings "github") in
      rejected r = None
      /\ location (trace r) = Some "https://app/api/auth/error?error=Callback"
      /\ cookie_writes (trace r) = []).
Proof.
  assert (T : thrown (trace (callback (L := node)
                               (answering HCallbackHandler (Thr not_linked) app)
                               oauth_return (settings "github")))
              = Some not_linked) by (vm_compute; reflexivity).
  assert (T' : thrown (trace (callback (L := node)
                                (answering HSignin (Thr nothing) app)
                                oauth_return (settings "github")))
               = Some nothing) by (vm_compute; reflexivity).
  assert (O : outcome HCallbackHandler
                (trace (callback (L := node)
                          (answering HCallbackHandler (Ret JNull) app)
                          oauth_return (settings "github")))
              = Some (Ret JNull)) by (vm_compute; reflexivity).
  split; [|split; [|split]].
  - exact (proj1 (oauth_error_pages (L := node) (broken_transport boom app)
                    oauth_return (settings "github") github_provider
                    eq_refl eq_refl) boom eq_refl).
  - exact (proj1 (proj2 (oauth_error_pages (L := node)
                           (answering HCallbackHandler (Thr not_linked) app)
                           oauth_return (settings "github") github_provider
                           eq_refl eq_refl)) not_linked T).
  - exact (proj1 (proj2 (oauth_error_pages (L := node)
                           (answering HSignin (Thr nothing) app)
                           oauth_return (settings "github") github_provider
                           eq_refl eq_refl)) nothing T').
  - exact (proj2 (proj2 (oauth_error_pages (L := node)
                           (answering HCallbackHandler (Ret JNull) app)
                           oauth_return (settings "github") github_provider
                           eq_refl eq_refl)) JNull O eq_refl).
Defined.

Lemma email_requires_adapter_witness :
  callback (L := node) app email_link (without_adapter (settings "email"))
  = ([LogError "EMAIL_REQUIRES_ADAPTER_ERROR" JUndefined;
      Status 302;
      SetHeader "Location" "https://app/api/auth/error?error=Configuration";
      End None; Done], Exit).
Proof.
  apply (email_requires_adapter (L := node) app email_link
           (without_adapter (settings "email")) email_provider eq_refl eq_refl).
  reflexivity.
Defined.

Lemma email_error_pages_witness :
  (let r := callback (L := node) (answering HCallbackHandler (Thr no_user) app)
              email_link (settings "email") in
   rejected r = None
   /\ status (trace r) = Some 302%Z
   /\ location (trace r) = Some "https://app/api/auth/error?error=EmailCreateAccount"
   /\ reported "CALLBACK_EMAIL_ERROR" (trace r) = false)
  /\ (let r := callback (L := node) (answering HSignin (Thr nothing) app)
                 email_link (settings "email") in
      rejected r
      = Some (TypeError "Cannot read properties of undefined (reading 'name')")
      /\ status (trace r) = None
      /\ location (trace r) = None
      /\ count is_done (trace r) = 0).
Proof.
  assert (T : thrown (trace (callback (L := node)
                               (answering HCallbackHandler (Thr no_user) app)
                               email_link (settings "email")))
              = Some no_user) by (vm_compute; reflexivity).
  assert (T' : thrown (trace (callback (L := node)
                                (answering HSignin (Thr nothing) app)
                                email_link (settings "email")))
               = Some nothing) by (vm_compute; reflexivity).
  split.
  - exact (email_error_pages (L := node)
             (answering HCallbackHandler (Thr no_user) app)
             email_link (settings "email") email_provider eq_refl eq_refl no_user T).
  - exact (email_error_pages (L := node)
             (answering HSignin (Thr nothing) app)
             email_link (settings "email") email_provider eq_refl eq_refl nothing T').
Defined.

Lemma email_profile_and_token_witness :
  let t := trace (callback (L := node) app email_link (settings "email")) in
  exists found,
    outcome HGetUserByEmail t = Some (Ret found)
    /\ arguments HGetUserByEmail t = Some [JStr "a@b.com"]
    /\ [JObj [("email", JStr "a@b.com")];
        JObj [("id", JStr "email"); ("type", JStr "email");
              ("providerAccountId", JStr "a@b.com")];
        JNull]
       = [js_or found (JObj [("email", JStr "a@b.com")]);
          JObj [("id", JStr (id email_provider)); ("type", JStr "email");
                ("providerAccountId", JStr "a@b.com")];
          JNull]
    /\ arguments HGetVerificationRequest t
       = Some [JStr "a@b.com"; JStr "t0k3n"; JStr "app-secret";
               js_of_provider email_provider]
    /\ arguments HDeleteVerificationRequest t
       = arguments HGetVerificationRequest t.
Proof.
  apply (email_profile_and_token (L := node) app email_link (settings "email")
           email_provider eq_refl eq_refl).
  vm_compute. reflexivity.
Defined.

Lemma credentials_need_token_sessions_witness :
  callback (L := node) app credentials_post
    (database_sessions (settings "credentials"))
  = ([LogError "CALLBACK_CREDENTIALS_JWT_ERROR"
        (JStr "Signin in with credentials is only supported if JSON Web Tokens are enabled");
      Status 302;
      SetHeader "Location" "https://app/api/auth/error?error=Configuration";
      End None; Done], Exit)
  /\ callback (L := node) app credentials_post
       (offering login_provider (settings "credentials"))
     = ([LogError "CALLBACK_CREDENTIALS_HANDLER_ERROR"
           (JStr "Must define an authorize() handler to use credentials authentication provider");
         Status 302;
         SetHeader "Location" "https://app/api/auth/error?error=Configuration";
         End None; Done], Exit).
Proof.
  split.
  - apply (proj1 (credentials_need_token_sessions (L := node) app credentials_post
                    (database_sessions (settings "credentials"))
                    credentials_provider eq_refl eq_refl eq_refl)).
    reflexivity.
  - apply (proj2 (credentials_need_token_sessions (L := node) app credentials_post
                    (offering login_provider (settings "credentials"))
                    login_provider eq_refl eq_refl eq_refl)).
    + reflexivity.
    + reflexivity.
Defined.

Lemma credentials_sign_in_what_authorize_returned_witness :
  let t := trace (callback (L := node) app credentials_post (settings "credentials")) in
  exists user,
    arguments HAuthorize t = Some [body credentials_post]
    /\ outcome HAuthorize t = Some (Ret user)
    /\ truthy user = true
    /\ [ann; JObj [("id", JStr "credentials"); ("type", JStr "credentials")];
        JObj [("username", JStr "ann"); ("password", JStr "pw")]]
       = [user;
          JObj [("id", JStr (id credentials_provider)); ("type", JStr "credentials")];
          body credentials_post]
    /\ called HCallbackHandler t = false
    /\ (forall payload, arguments HJwt t = Some payload ->
        payload
        = [JObj [("user", user);
                 ("account",
                  JObj [("id", JStr (id credentials_provider));
                        ("type", JStr "credentials")])]]).
Proof.
  apply (credentials_sign_in_what_authorize_returned (L := node) app
           credentials_post (settings "credentials") credentials_provider
           eq_refl eq_refl eq_refl).
  vm_compute. reflexivity.
Defined.

Lemma credentials_success_witness :
  let o := settings "credentials" in
  let t := trace (callback (L := node) app credentials_post o) in
  exists token,
    outcome HJwtEncode t = Some (Ret token)
    /\ cookie_writes t
       = [(name (sessionTokenCookie o), token,
           spread [("expires", JStr (@lib_iso node (now app + sessionMaxAge o * 1000)))]
                  (options (sessionTokenCookie o)))]
    /\ status t = Some 302%Z
    /\ location t = Some (destination o)
    /\ rejected (callback (L := node) app credentials_post o) = None.
Proof.
  apply (credentials_success (L := node) app credentials_post
           (settings "credentials") credentials_provider eq_refl eq_refl eq_refl
           JUndefined).
  vm_compute. reflexivity.
Defined.

Lemma initiation_payload_is_no_proof_witness :
  let o := settings "discourse" in
  let r := callback (L := node) app
             (sso_callback initiation_sso initiation_sig binding_abc123) o in
  logged "Non-matching sig / sso keys" (trace r) = false
  /\ logged "Non-matching nonce" (trace r) = false
  /\ logged "Missing property on returned object" (trace r) = true
  /\ hooks_called (trace r) = []
  /\ cookie_writes (trace r) = [nonce_clearing o]
  /\ status (trace r) = Some 302%Z
  /\ location (trace r) = Some (error_page o "oAuthCallback")
  /\ rejected r = None.
Proof.
  refine (initiation_payload_is_no_proof app
            (sso_callback initiation_sso initiation_sig binding_abc123)
            (settings "discourse") discourse_provider [171; 193; 35]%N
            [("next-auth.nonce-hash", binding_abc123)]
            eq_refl eq_refl _ _ _ _ _ eq_refl _).
  - vm_compute. reflexivity.
  - vm_compute. reflexivity.
  - vm_compute. reflexivity.
  - vm_compute. reflexivity.
  - vm_compute. reflexivity.
  - vm_compute. reflexivity.
Defined.

Lemma discourse_provider_options_win_witness :
  let o := [("discourse_url", JStr "https://forum.example"); ("id", JStr "forum")] in
  exists r,
    Provider.Discourse (Some o) = inr r
    /\ Provider.field "id" r = Some (Provider.Data (JStr "forum"))
    /\ Provider.field "type" r = Some (Provider.Data (JStr "discourse"))
    /\ Provider.field "profile" r = Some (Provider.Method Provider.profile).
Proof.
  assert (N : NoDup ["discourse_url"; "id"]).
  { repeat constructor; cbn; intuition discriminate. }
  destruct (discourse_provider_options_win
              [("discourse_url", JStr "https://forum.example"); ("id", JStr "forum")]
              "id" N)
    as (r & E & F & T & _ & P).
  exists r. exact (conj E (conj F (conj (T eq_refl) (P eq_refl)))).
Defined.
